(** * IndiaNewsBot: the filter, classify, render and publish pipeline

    A shallow embedding of [src/main.py] (class [IndiaNewsBot]) and the proofs
    of the properties its specification states.

    Conventions of the embedding.
    - A Python [str] is a [string].  The case table ([lower_char],
      [upper_char]), the character classes ([is_word], [is_space]) and the
      slice ([slice_to]) of [Text] are those of Python on ASCII text, which is
      where the pattern of the matcher and every keyword of the fallback
      classifier live; a character beyond ASCII is left as it is by [lower]
      and belongs to no class, where Python follows the Unicode database.
      A property that reads these tables is therefore stated in one of two
      ways: over any table, with the functions of [General], which take the
      alphabet, [\w], the case classes, [str.lower()] and the slice as
      parameters and have the functions of [Bot] as their instance at ASCII;
      or on ASCII text, under the predicates of [Domain].  Non-ASCII literals
      of the source (the icons) are kept as the bytes of the source file and
      are only ever concatenated.
    - Python objects that travel as JSON (the request bodies, the replies, the
      payload, a verdict) are [value]s; a dict is an association list in
      insertion order whose keys are distinct.
    - Console output, the HTTP calls and exceptions are explicit: a computation
      of type [py A] takes the [world] and the outcome of each library call
      from an environment, and [try_except] is Python's [try/except Exception].
      [print] is the one of a console that can write the line, as every
      console can for ASCII text; [Domain.speakable] says so of what line 275
      prints of a reply.
    - [run] is embedded in [Orchestrator], with the way an f-string shows an
      object that is not a string as a parameter.  The start-up check of the
      webhook (the [__main__] block) is not embedded.
*)

From Stdlib Require Import String Ascii List ZArith Bool Lia Arith.
From Stdlib Require Import Numbers.DecimalString.
Import ListNotations.
Open Scope string_scope.
Open Scope bool_scope.
Open Scope nat_scope.

(* ------------------------------------------------------------------------- *)
(** * Text primitives: the [str] methods and operators the bot uses *)
(* ------------------------------------------------------------------------- *)

Module Text.

Definition code (c : ascii) : nat := nat_of_ascii c.

Definition is_upper (c : ascii) : bool := (65 <=? code c) && (code c <=? 90).
Definition is_lower (c : ascii) : bool := (97 <=? code c) && (code c <=? 122).
Definition is_digit (c : ascii) : bool := (48 <=? code c) && (code c <=? 57).

(** [\w] on an ASCII character: letters, digits and the underscore. *)
Definition is_word (c : ascii) : bool :=
  is_upper c || is_lower c || is_digit c || (code c =? 95).

(** [\s] and the characters [str.strip()] removes, on an ASCII character:
    tab, line feed, vertical tab, form feed, carriage return, the four
    separators 28..31 and space. *)
Definition is_space (c : ascii) : bool :=
  ((9 <=? code c) && (code c <=? 13)) || ((28 <=? code c) && (code c <=? 32)).

Definition lower_char (c : ascii) : ascii :=
  if is_upper c then ascii_of_nat (code c + 32) else c.

Definition upper_char (c : ascii) : ascii :=
  if is_lower c then ascii_of_nat (code c - 32) else c.

(** [s.lower()] on ASCII text *)
Fixpoint lower (s : string) : string :=
  match s with
  | EmptyString => EmptyString
  | String c r => String (lower_char c) (lower r)
  end.

(** [s.capitalize()] on ASCII text *)
Definition capitalize (s : string) : string :=
  match s with
  | EmptyString => EmptyString
  | String c r => String (upper_char c) (lower r)
  end.

(** [s[:n]] on ASCII text, where a character is a byte *)
Definition slice_to (n : nat) (s : string) : string := substring 0 n s.

(** [w in text] for two strings: [w] occurs in [text] as a substring. *)
Fixpoint contains (w text : string) : bool :=
  prefix w text
  || match text with
     | EmptyString => false
     | String _ r => contains w r
     end.

(** [str(n)] for an [int]. *)
Definition str_of_int (z : Z) : string := NilZero.string_of_int (Z.to_int z).

(** [str(n)] for a length. *)
Definition str_of_nat (n : nat) : string := str_of_int (Z.of_nat n).

Fixpoint lstrip (s : string) : string :=
  match s with
  | EmptyString => EmptyString
  | String c r => if is_space c then lstrip r else s
  end.

Fixpoint rstrip (s : string) : string :=
  match s with
  | EmptyString => EmptyString
  | String c r =>
      match rstrip r with
      | EmptyString => if is_space c then EmptyString else String c EmptyString
      | r' => String c r'
      end
  end.

(** [s.strip()] on ASCII text *)
Definition strip (s : string) : string := rstrip (lstrip s).

Definition first_char (s : string) : option ascii :=
  match s with
  | EmptyString => None
  | String c _ => Some c
  end.

Fixpoint last_char (s : string) : option ascii :=
  match s with
  | EmptyString => None
  | String c EmptyString => Some c
  | String _ r => last_char r
  end.

End Text.

(* ------------------------------------------------------------------------- *)
(** * The fragment of [re] the bot uses *)
(* ------------------------------------------------------------------------- *)

Module Re.
Import Text.

(** A pattern is a sequence of atoms: [\b] and literal characters. *)
Inductive atom : Type :=
| WordBoundary : atom
| Literal : ascii -> atom.

Definition pattern := list atom.

(** The flags of a search; [re.IGNORECASE] is the only one the bot passes. *)
Record flags : Type := { ignorecase : bool }.

Definition IGNORECASE : flags := {| ignorecase := true |}.
Definition NOFLAG : flags := {| ignorecase := false |}.

Definition word_at (c : option ascii) : bool :=
  match c with
  | Some x => is_word x
  | None => false
  end.

(** A literal [p] of the pattern against the character [c] of the subject. *)
Definition char_match (f : flags) (p c : ascii) : bool :=
  if ignorecase f
  then Ascii.eqb (lower_char c) (lower_char p)
  else Ascii.eqb c p.

(** The pattern matches at the current position: [prev] is the character
    just before it (none at the start of the subject), [s] what follows. *)
Fixpoint match_here (f : flags) (p : pattern) (prev : option ascii) (s : string)
  : bool :=
  match p with
  | [] => true
  | WordBoundary :: p' =>
      xorb (word_at prev) (word_at (first_char s)) && match_here f p' prev s
  | Literal a :: p' =>
      match s with
      | EmptyString => false
      | String c r => char_match f a c && match_here f p' (Some c) r
      end
  end.

Fixpoint search_from (f : flags) (p : pattern) (prev : option ascii) (s : string)
  : bool :=
  match_here f p prev s
  || match s with
     | EmptyString => false
     | String c r => search_from f p (Some c) r
     end.

(** [re.search(p, s, flags)] as a truth value: some position of [s] matches. *)
Definition search (p : pattern) (s : string) (f : flags) : bool :=
  search_from f p None s.

(** The character before the position reached after reading [w] from a
    position whose previous character is [prev]. *)
Definition last_or (prev : option ascii) (w : string) : option ascii :=
  match last_char w with
  | Some c => Some c
  | None => prev
  end.

Fixpoint literals (s : string) : pattern :=
  match s with
  | EmptyString => []
  | String c r => Literal c :: literals r
  end.

(** [r'\bW\b'] for a word [W]. *)
Definition word_pattern (w : string) : pattern :=
  (WordBoundary :: literals w ++ [WordBoundary])%list.

(** The length of the run of whitespace [s] starts with. *)
Fixpoint space_run (s : string) : nat :=
  match s with
  | EmptyString => 0
  | String c r => if is_space c then S (space_run r) else 0
  end.

Fixpoint drop (n : nat) (s : string) : string :=
  match n, s with
  | 0, _ => s
  | S n', EmptyString => EmptyString
  | S n', String _ r => drop n' r
  end.

Definition fence : string := "```".
Definition fence_json : string := "```json".

(** The length of the match of [```json\s*|\s*```] at the start of [s], if
    there is one: the first alternative is tried first, and [\s*] is greedy.
    (Giving back whitespace cannot help the second alternative: what follows
    a shorter run is whitespace, not a backquote.) *)
Definition fence_match (s : string) : option nat :=
  if prefix fence_json s
  then Some (7 + space_run (drop 7 s))
  else
    let k := space_run s in
    if prefix fence (drop k s) then Some (k + 3) else None.

(** [re.sub(r'```json\s*|\s*```', '', s)]: the subject is scanned from the
    left; where the pattern matches, the match is dropped and the scan goes on
    after it.  [skip] counts the characters of a match still to drop. *)
Fixpoint sub_fences_from (skip : nat) (s : string) : string :=
  match s with
  | EmptyString => EmptyString
  | String c r =>
      match skip with
      | S k => sub_fences_from k r
      | 0 =>
          match fence_match s with
          | Some n => sub_fences_from (pred n) r
          | None => String c (sub_fences_from 0 r)
          end
      end
  end.

Definition sub_fences (s : string) : string := sub_fences_from 0 s.

End Re.

(* ------------------------------------------------------------------------- *)
(** * Python objects, exceptions and effects *)
(* ------------------------------------------------------------------------- *)

Module Py.
Import Text.

(** The objects [json] reads and writes.  A [float] keeps its lexeme. *)
#[warnings="-register-all"]
Inductive value : Type :=
| VNone : value
| VBool : bool -> value
| VInt : Z -> value
| VFloat : string -> value
| VStr : string -> value
| VList : list value -> value
| VDict : list (string * value) -> value.

(** An instance of a subclass of [Exception]; [str(e)] is [exn_msg e]. *)
Record exn : Type := { exn_class : string; exn_msg : string }.

Inductive outcome (A : Type) : Type :=
| Returns : A -> outcome A
| Raises : exn -> outcome A.

Arguments Returns {A} _.
Arguments Raises {A} _.

Definition KeyError (k : string) : exn :=
  {| exn_class := "KeyError"; exn_msg := k |}.
Definition IndexError (m : string) : exn :=
  {| exn_class := "IndexError"; exn_msg := m |}.
Definition TypeError (m : string) : exn :=
  {| exn_class := "TypeError"; exn_msg := m |}.
Definition AttributeError (m : string) : exn :=
  {| exn_class := "AttributeError"; exn_msg := m |}.
Definition JSONDecodeError (m : string) : exn :=
  {| exn_class := "JSONDecodeError"; exn_msg := m |}.

Definition type_name (v : value) : string :=
  match v with
  | VNone => "NoneType"
  | VBool _ => "bool"
  | VInt _ => "int"
  | VFloat _ => "float"
  | VStr _ => "str"
  | VList _ => "list"
  | VDict _ => "dict"
  end.

(** [d.get(k)] on the association list of a dict. *)
Fixpoint lookup (k : string) (d : list (string * value)) : option value :=
  match d with
  | [] => None
  | (k', v) :: d' => if String.eqb k k' then Some v else lookup k d'
  end.

(** [d[k] = v]: a key already there keeps its place. *)
Fixpoint store (k : string) (v : value) (d : list (string * value))
  : list (string * value) :=
  match d with
  | [] => [(k, v)]
  | (k', v') :: d' =>
      if String.eqb k k' then (k, v) :: d' else (k', v') :: store k v d'
  end.

Definition not_subscriptable (v : value) : exn :=
  TypeError ("'" ++ type_name v ++ "' object is not subscriptable").

(** [v[k]] for a string [k]. *)
Definition getitem_str (v : value) (k : string) : outcome value :=
  match v with
  | VDict d =>
      match lookup k d with
      | Some x => Returns x
      | None => Raises (KeyError ("'" ++ k ++ "'"))
      end
  | VList _ => Raises (TypeError "list indices must be integers or slices, not str")
  | VStr _ => Raises (TypeError "string indices must be integers, not 'str'")
  | _ => Raises (not_subscriptable v)
  end.

(** [v[0]] *)
Definition getitem_0 (v : value) : outcome value :=
  match v with
  | VList (x :: _) => Returns x
  | VList [] => Raises (IndexError "list index out of range")
  | VStr (String c _) => Returns (VStr (String c EmptyString))
  | VStr EmptyString => Raises (IndexError "string index out of range")
  | VDict _ => Raises (KeyError "0")
  | _ => Raises (not_subscriptable v)
  end.

(** [v.strip()] *)
Definition method_strip (v : value) : outcome string :=
  match v with
  | VStr s => Returns (strip s)
  | _ => Raises (AttributeError
                   ("'" ++ type_name v ++ "' object has no attribute 'strip'"))
  end.

(** [v.capitalize()] *)
Definition method_capitalize (v : value) : outcome string :=
  match v with
  | VStr s => Returns (capitalize s)
  | _ => Raises (AttributeError
                   ("'" ++ type_name v ++ "' object has no attribute 'capitalize'"))
  end.

(** [v.get(k, default)] *)
Definition method_get (v : value) (k : string) (default : value) : outcome value :=
  match v with
  | VDict d =>
      match lookup k d with
      | Some x => Returns x
      | None => Returns default
      end
  | _ => Raises (AttributeError
                   ("'" ++ type_name v ++ "' object has no attribute 'get'"))
  end.

(** [v[:n]] *)
Definition slice_value (n : nat) (v : value) : outcome value :=
  match v with
  | VStr s => Returns (VStr (slice_to n s))
  | VList l => Returns (VList (firstn n l))
  | VDict _ => Raises (TypeError "unhashable type: 'slice'")
  | _ => Raises (not_subscriptable v)
  end.

(** [table.get(key, default)] for a table whose keys are strings: a list or
    a dict cannot be hashed, and any other key that is not a string is not in
    the table. *)
Fixpoint assoc {A} (k : string) (table : list (string * A)) : option A :=
  match table with
  | [] => None
  | (k', x) :: t => if String.eqb k k' then Some x else assoc k t
  end.

Definition table_get {A} (table : list (string * A)) (key : value) (default : A)
  : outcome A :=
  match key with
  | VStr k =>
      match assoc k table with
      | Some x => Returns x
      | None => Returns default
      end
  | VList _ | VDict _ =>
      Raises (TypeError ("unhashable type: '" ++ type_name key ++ "'"))
  | _ => Returns default
  end.

(** Sequencing of steps that may raise. *)
Definition and_then {A B} (o : outcome A) (k : A -> outcome B) : outcome B :=
  match o with
  | Returns a => k a
  | Raises e => Raises e
  end.

(** [for x in xs: acc = step acc x], for steps that may raise. *)
Fixpoint for_each_raising {A B} (xs : list A) (acc : B) (step : B -> A -> outcome B)
  : outcome B :=
  match xs with
  | [] => Returns acc
  | x :: xs' => and_then (step acc x) (fun acc' => for_each_raising xs' acc' step)
  end.

(** ** What a run observes and changes *)

(** A call of [requests.post]. *)
Record request : Type :=
  { url : string;
    headers : list (string * string);
    json : value;
    timeout : Z }.

(** What [requests.post] returns: [response.status_code], [response.text]. *)
Record response : Type := { status_code : Z; text : string }.

(** A raw feed entry; a key the feed does not give is [None]. *)
Record entry : Type :=
  { entry_title : option string;
    entry_link : option string;
    entry_published : option string;
    entry_summary : option string }.

(** The libraries and services around the bot. *)
Record env : Type :=
  { (** [requests.post]: what the call answers, given the calls made before
        it; a transport error or a timeout is a raised exception. *)
    requests_post : list request -> request -> outcome response;
    (** [json.loads], also behind [response.json()]. *)
    json_loads : string -> outcome value;
    (** [feedparser.parse(url).entries] *)
    feedparser_parse : string -> outcome (list entry);
    (** [datetime.utcnow().isoformat()] *)
    utcnow_isoformat : string }.

(** The console and the HTTP calls made so far, oldest first. *)
Record world : Type := { stdout : list string; posted : list request }.

Definition world0 : world := {| stdout := []; posted := [] |}.

Definition py (A : Type) : Type := world -> outcome A * world.

Definition ret {A} (a : A) : py A := fun w => (Returns a, w).

Definition raise {A} (e : exn) : py A := fun w => (Raises e, w).

Definition bind {A B} (m : py A) (k : A -> py B) : py B :=
  fun w =>
    match m w with
    | (Returns a, w') => k a w'
    | (Raises e, w') => (Raises e, w')
    end.

(** [try: body / except Exception as e: handler]; what [body] printed and
    posted before it raised stays. *)
Definition try_except {A} (body : py A) (handler : exn -> py A) : py A :=
  fun w =>
    match body w with
    | (Returns a, w') => (Returns a, w')
    | (Raises e, w') => handler e w'
    end.

Definition lift {A} (o : outcome A) : py A := fun w => (o, w).

(** The world after the lines [out] were printed. *)
Definition printed (w : world) (out : list string) : world :=
  {| stdout := (stdout w ++ out)%list; posted := posted w |}.

(** [print(line)] on a console that can write [line] *)
Definition print (line : string) : py unit :=
  fun w => (Returns tt, {| stdout := (stdout w ++ [line])%list; posted := posted w |}).

(** [requests.post(url, ...)] in the environment [E]. *)
Definition post (E : env) (r : request) : py response :=
  fun w =>
    (requests_post E (posted w) r,
     {| stdout := stdout w; posted := (posted w ++ [r])%list |}).

(** [for x in xs: acc = step acc x] *)
Fixpoint for_each {A B} (xs : list A) (acc : B) (step : B -> A -> py B) : py B :=
  match xs with
  | [] => ret acc
  | x :: xs' => bind (step acc x) (fun acc' => for_each xs' acc' step)
  end.

End Py.

Declare Scope py_scope.
Delimit Scope py_scope with py.
Notation "x <- m ;; k" := (Py.bind m (fun x => k))
  (at level 61, m at next level, right associativity) : py_scope.
Notation "m ;; k" := (Py.bind m (fun _ => k))
  (at level 61, right associativity) : py_scope.

Declare Scope exc_scope.
Delimit Scope exc_scope with exc.
Notation "x <- m ;; k" := (Py.and_then m (fun x => k))
  (at level 61, m at next level, right associativity) : exc_scope.

(* ------------------------------------------------------------------------- *)
(** * A decoder for JSON texts *)
(* ------------------------------------------------------------------------- *)

(** [Json.loads] is [json.loads] on ASCII texts, but for the [\u] escape of a
    string, which it does not decode, and for the text of its errors, which is
    shortened.  It is the decoder of the concrete environments below; the
    general theorems hold for every decoder an environment carries. *)
Module Json.
Import Text Py.

Definition dquote : ascii := ascii_of_nat 34.
Definition backslash : ascii := ascii_of_nat 92.

(** [s] between double quotes. *)
Definition quoted (s : string) : string :=
  String dquote (s ++ String dquote EmptyString).

Definition is_json_space (c : ascii) : bool :=
  (code c =? 32) || (code c =? 9) || (code c =? 10) || (code c =? 13).

Fixpoint skip_ws (s : string) : string :=
  match s with
  | EmptyString => EmptyString
  | String c r => if is_json_space c then skip_ws r else s
  end.

Definition unescape (c : ascii) : option ascii :=
  if Ascii.eqb c dquote then Some dquote
  else if Ascii.eqb c backslash then Some backslash
  else if Ascii.eqb c "/" then Some "/"%char
  else if Ascii.eqb c "b" then Some (ascii_of_nat 8)
  else if Ascii.eqb c "f" then Some (ascii_of_nat 12)
  else if Ascii.eqb c "n" then Some (ascii_of_nat 10)
  else if Ascii.eqb c "r" then Some (ascii_of_nat 13)
  else if Ascii.eqb c "t" then Some (ascii_of_nat 9)
  else None.

(** The characters of a string after its opening quote, and what follows the
    closing one. *)
Fixpoint string_body (s : string) : option (string * string) :=
  match s with
  | EmptyString => None
  | String c r =>
      if Ascii.eqb c dquote then Some (EmptyString, r)
      else if Ascii.eqb c backslash then
        match r with
        | EmptyString => None
        | String e r' =>
            match unescape e, string_body r' with
            | Some x, Some (t, rest) => Some (String x t, rest)
            | _, _ => None
            end
        end
      else if code c <? 32 then None
      else
        match string_body r with
        | Some (t, rest) => Some (String c t, rest)
        | None => None
        end
  end.

Fixpoint digits (s : string) (acc : Z) : Z * string :=
  match s with
  | EmptyString => (acc, s)
  | String c r =>
      if is_digit c
      then digits r (10 * acc + Z.of_nat (code c - 48))%Z
      else (acc, s)
  end.

(** [0|[1-9][0-9]*] *)
Definition natural (s : string) : option (Z * string) :=
  match s with
  | EmptyString => None
  | String c r =>
      if Ascii.eqb c "0" then Some (0%Z, r)
      else if is_digit c then Some (digits s 0%Z)
      else None
  end.

Definition starts_with_digit (s : string) : bool :=
  match s with
  | String c _ => is_digit c
  | EmptyString => false
  end.

(** [(\.[0-9]+)?]: what follows the fraction, if there is one. *)
Definition fraction (s : string) : option string :=
  match s with
  | String "." r =>
      if starts_with_digit r then Some (snd (digits r 0%Z)) else None
  | _ => None
  end.

(** [([eE][-+]?[0-9]+)?]: what follows the exponent, if there is one. *)
Definition exponent (s : string) : option string :=
  match s with
  | String c r =>
      if Ascii.eqb c "e" || Ascii.eqb c "E" then
        let r' :=
          match r with
          | String "+" t => t
          | String "-" t => t
          | _ => r
          end in
        if starts_with_digit r' then Some (snd (digits r' 0%Z)) else None
      else None
  | EmptyString => None
  end.

(** A number: an [int] when it has neither fraction nor exponent, else a
    [float], kept as the text read. *)
Definition number (s : string) : option (value * string) :=
  let (neg, s') :=
    match s with
    | String "-" r => (true, r)
    | _ => (false, s)
    end in
  match natural s' with
  | Some (z, r0) =>
      let r1 := match fraction r0 with Some r => r | None => r0 end in
      let r2 := match exponent r1 with Some r => r | None => r1 end in
      match fraction r0, exponent r1 with
      | None, None => Some (VInt (if neg then (- z)%Z else z), r0)
      | _, _ =>
          Some (VFloat (substring 0 (String.length s - String.length r2) s), r2)
      end
  | None => None
  end.

Definition name (s : string) : option (value * string) :=
  if prefix "null" s then Some (VNone, Re.drop 4 s)
  else if prefix "true" s then Some (VBool true, Re.drop 4 s)
  else if prefix "false" s then Some (VBool false, Re.drop 5 s)
  else if prefix "NaN" s then Some (VFloat "NaN", Re.drop 3 s)
  else if prefix "Infinity" s then Some (VFloat "Infinity", Re.drop 8 s)
  else if prefix "-Infinity" s then Some (VFloat "-Infinity", Re.drop 9 s)
  else None.

Section Containers.
(** The decoder of one value, for the elements and the members. *)
Variable one : string -> option (value * string).

(** After [[] and one or more elements were expected. *)
Fixpoint elements (fuel : nat) (s : string) : option (list value * string) :=
  match fuel with
  | 0 => None
  | S n =>
      match one s with
      | None => None
      | Some (v, r) =>
          match skip_ws r with
          | String "," r' =>
              match elements n (skip_ws r') with
              | Some (vs, rest) => Some (v :: vs, rest)
              | None => None
              end
          | String "]" r' => Some ([v], r')
          | _ => None
          end
      end
  end.

(** After [{] and one or more members were expected; a name given twice
    keeps its last value. *)
Fixpoint members (fuel : nat) (d : list (string * value)) (s : string)
  : option (list (string * value) * string) :=
  match fuel with
  | 0 => None
  | S n =>
      match s with
      | String q r =>
          if Ascii.eqb q dquote then
            match string_body r with
            | None => None
            | Some (k, r1) =>
                match skip_ws r1 with
                | String ":" r2 =>
                    match one (skip_ws r2) with
                    | None => None
                    | Some (v, r3) =>
                        match skip_ws r3 with
                        | String "," r4 => members n (store k v d) (skip_ws r4)
                        | String "}" r4 => Some (store k v d, r4)
                        | _ => None
                        end
                    end
                | _ => None
                end
            end
          else None
      | EmptyString => None
      end
  end.
End Containers.

Fixpoint decode (fuel : nat) (s : string) : option (value * string) :=
  match fuel with
  | 0 => None
  | S n =>
      match s with
      | EmptyString => None
      | String c r =>
          if Ascii.eqb c dquote then
            match string_body r with
            | Some (t, rest) => Some (VStr t, rest)
            | None => None
            end
          else if Ascii.eqb c "[" then
            match skip_ws r with
            | String "]" rest => Some (VList [], rest)
            | r' =>
                match elements (decode n) n r' with
                | Some (vs, rest) => Some (VList vs, rest)
                | None => None
                end
            end
          else if Ascii.eqb c "{" then
            match skip_ws r with
            | String "}" rest => Some (VDict [], rest)
            | r' =>
                match members (decode n) n [] r' with
                | Some (d, rest) => Some (VDict d, rest)
                | None => None
                end
            end
          else
            match name s with
            | Some x => Some x
            | None => number s
            end
      end
  end.

(** [json.loads(s)] *)
Definition loads (s : string) : outcome value :=
  match decode (S (String.length s)) (skip_ws s) with
  | Some (v, rest) =>
      match skip_ws rest with
      | EmptyString => Returns v
      | _ => Raises (JSONDecodeError "Extra data")
      end
  | None => Raises (JSONDecodeError "Expecting value")
  end.

(** [json.dumps(s)] for a string of printable ASCII characters and line
    feeds: the quote, the backslash and the line feed are escaped. *)
Fixpoint escaped (s : string) : string :=
  match s with
  | EmptyString => EmptyString
  | String c r =>
      if Ascii.eqb c dquote || Ascii.eqb c backslash
      then String backslash (String c (escaped r))
      else if code c =? 10
      then String backslash (String "n" (escaped r))
      else String c (escaped r)
  end.

Definition dumps_str (s : string) : string := quoted (escaped s).

End Json.

(* ------------------------------------------------------------------------- *)
(** * The bot: [class IndiaNewsBot] *)
(* ------------------------------------------------------------------------- *)

Module Bot.
Import Text Re Py.

(** The dict [fetch_articles] builds for a matching entry. *)
Record article : Type :=
  { source : string;
    title : string;
    link : string;
    published : string;
    summary : string }.

(** [{'article': article, 'analysis': analysis}] *)
Record item : Type := { item_article : article; item_analysis : value }.

(** [self] *)
Record bot : Type :=
  { webhook_url : string;
    news_sources : list (string * string) }.

(** [__init__] *)
Definition IndiaNewsBot (discord_webhook_url : string) : bot :=
  {| webhook_url := discord_webhook_url;
     news_sources :=
       [ ("The Guardian", "https://www.theguardian.com/world/rss");
         ("New York Times",
          "https://rss.nytimes.com/services/xml/rss/nyt/World.xml");
         ("Dawn (Pakistan)", "https://www.dawn.com/feeds/home") ] |}.

(** [d.get(k, default)] for a key of an entry. *)
Definition get (field : option string) (default : string) : string :=
  match field with
  | Some s => s
  | None => default
  end.

(** ** [fetch_articles] *)

(** [r'\bIndia\b'] *)
Definition india_pattern : pattern := word_pattern "India".

(** The test of line 29 on an entry. *)
Definition mentions_india (e : entry) : bool :=
  let title := get (entry_title e) EmptyString in
  search india_pattern title IGNORECASE.

(** The article built for a matching entry. *)
Definition article_of (source_name : string) (e : entry) : article :=
  {| source := source_name;
     title := get (entry_title e) EmptyString;
     link := get (entry_link e) EmptyString;
     published := get (entry_published e) "Date not available";
     summary := slice_to 300 (get (entry_summary e) EmptyString) |}.

(** The body of [for entry in feed.entries]. *)
Definition fetch_entry (source_name : string) (all_articles : list article)
  (e : entry) : py (list article) :=
  let title := get (entry_title e) EmptyString in
  if search india_pattern title IGNORECASE then
    let article := article_of source_name e in
    (print ("  ✓ Found: " ++ slice_to 60 title ++ "...") ;;
     ret (all_articles ++ [article])%list)%py
  else ret all_articles.

(** The body of [for source_name, rss_url in self.news_sources.items()].  The
    one step of the [try] block that can raise is the retrieval of the feed,
    which comes before any article of the source is appended: the handler
    goes on with the list as it was. *)
Definition fetch_source (E : env) (all_articles : list article)
  (src : string * string) : py (list article) :=
  let (source_name, rss_url) := src in
  try_except
    (print ("Fetching from " ++ source_name ++ "...") ;;
     entries <- lift (feedparser_parse E rss_url) ;;
     for_each entries all_articles (fetch_entry source_name))%py
    (fun e =>
       (print ("Error fetching from " ++ source_name ++ ": " ++ exn_msg e) ;;
        ret all_articles)%py).

Definition fetch_articles (E : env) (self : bot) : py (list article) :=
  for_each (news_sources self) [] (fetch_source E).

(** ** [fallback_analysis] *)

Definition positive_words : list string :=
  ["success"; "growth"; "win"; "boost"; "improve"; "achievement"; "celebrates"].
Definition negative_words : list string :=
  ["crisis"; "conflict"; "concern"; "attack"; "threat"; "decline"; "warns"].

Definition politics_words : list string :=
  ["election"; "government"; "minister"; "parliament"; "party"].
Definition economy_words : list string :=
  ["economy"; "trade"; "gdp"; "market"; "business"].
Definition sports_words : list string := ["cricket"; "sport"; "match"; "olympic"].
Definition technology_words : list string := ["tech"; "digital"; "ai"; "startup"].
Definition defense_words : list string := ["military"; "defense"; "army"; "border"].

(** [text = title_lower + " " + summary_lower] *)
Definition text_of (a : article) : string :=
  let title_lower := lower (title a) in
  let summary_lower := lower (summary a) in
  title_lower ++ " " ++ summary_lower.

(** [sum(1 for word in words if word in text)] *)
Fixpoint count_in (words : list string) (text : string) : nat :=
  match words with
  | [] => 0
  | word :: rest =>
      if contains word text then 1 + count_in rest text else count_in rest text
  end.

(** [any(word in text for word in words)] *)
Fixpoint any_in (words : list string) (text : string) : bool :=
  match words with
  | [] => false
  | word :: rest => if contains word text then true else any_in rest text
  end.

Definition sentiment_of_text (text : string) : string :=
  let pos_count := count_in positive_words text in
  let neg_count := count_in negative_words text in
  if neg_count <? pos_count then "positive"
  else if pos_count <? neg_count then "negative"
  else "neutral".

Definition category_of_text (text : string) : string :=
  if any_in politics_words text then "Politics"
  else if any_in economy_words text then "Economy"
  else if any_in sports_words text then "Sports"
  else if any_in technology_words text then "Technology"
  else if any_in defense_words text then "Defense"
  else "Other".

Definition fallback_analysis (a : article) : value :=
  let text := text_of a in
  let sentiment := sentiment_of_text text in
  let category := category_of_text text in
  VDict [ ("sentiment", VStr sentiment);
          ("category", VStr category);
          ("reasoning", VStr "Keyword-based analysis") ].

(** ** [analyze_with_ai] *)

Definition nl : string := String (ascii_of_nat 10) EmptyString.

Definition prompt_of (a : article) : string :=
  let q := Json.quoted in
  "Analyze this news article title and summary about India:" ++ nl
  ++ nl
  ++ "Title: " ++ title a ++ nl
  ++ "Summary: " ++ summary a ++ nl
  ++ nl
  ++ "Provide analysis in this EXACT JSON format (no other text):" ++ nl
  ++ "{" ++ nl
  ++ "    " ++ q "sentiment" ++ ": " ++ q "positive" ++ " or " ++ q "negative"
  ++ " or " ++ q "neutral" ++ "," ++ nl
  ++ "    " ++ q "category" ++ ": " ++ q "Politics" ++ " or " ++ q "Economy"
  ++ " or " ++ q "Sports" ++ " or " ++ q "Technology" ++ " or " ++ q "Defense"
  ++ " or " ++ q "Diplomacy" ++ " or " ++ q "Other" ++ "," ++ nl
  ++ "    " ++ q "reasoning" ++ ": " ++ q "brief 1 sentence explanation" ++ nl
  ++ "}".

Definition classification_request (a : article) : request :=
  {| url := "https://api.anthropic.com/v1/messages";
     headers := [("Content-Type", "application/json")];
     json :=
       VDict [ ("model", VStr "claude-sonnet-4-20250514");
               ("max_tokens", VInt 1000);
               ("messages",
                VList [ VDict [ ("role", VStr "user");
                                ("content", VStr (prompt_of a)) ] ]) ];
     timeout := 30 |}.

Definition analyze_with_ai (E : env) (a : article) : py value :=
  try_except
    (response <- post E (classification_request a) ;;
     if (status_code response =? 200)%Z then
       data <- lift (json_loads E (text response)) ;;
       content <- lift (c <- getitem_str data "content" ;;
                        c0 <- getitem_0 c ;;
                        t <- getitem_str c0 "text" ;;
                        method_strip t)%exc ;;
       let content := strip (sub_fences content) in
       analysis <- lift (json_loads E content) ;;
       ret analysis
     else
       print ("API error: " ++ str_of_int (status_code response)) ;;
       ret (fallback_analysis a))%py
    (fun e =>
       (print ("AI analysis error: " ++ exn_msg e) ;;
        ret (fallback_analysis a))%py).

(** ** [get_emoji] *)

Definition sentiment_emoji : list (string * string) :=
  [ ("positive", "🟢"); ("negative", "🔴"); ("neutral", "🟡") ].

Definition category_emoji : list (string * string) :=
  [ ("Politics", "🏛️"); ("Economy", "💰"); ("Sports", "⚽");
    ("Technology", "💻"); ("Defense", "🛡️"); ("Diplomacy", "🤝");
    ("Other", "📰") ].

Definition get_emoji (sentiment category : value) : outcome (string * string) :=
  (s <- table_get sentiment_emoji sentiment "⚪" ;;
   c <- table_get category_emoji category "📰" ;;
   Returns (s, c))%exc.

(** ** [format_discord_message] *)

Definition color_map : list (string * Z) :=
  [ ("positive", 5763719%Z); ("negative", 15548997%Z); ("neutral", 16776960%Z) ].

Definition empty_description : string :=
  "No articles mentioning India found in the last check.".

Definition empty_embed (E : env) : value :=
  VDict [ ("title", VStr "📰 News Update");
          ("description", VStr empty_description);
          ("color", VInt 3447003);
          ("timestamp", VStr (utcnow_isoformat E)) ].

Definition header_embed (E : env) (n : nat) : value :=
  VDict [ ("title", VStr "🌍 What is world saying about India");
          ("description",
           VStr ("Found **" ++ str_of_nat n ++ "** articles mentioning India"));
          ("color", VInt 16744192);
          ("timestamp", VStr (utcnow_isoformat E)) ].

(** The embed of one item: what [for item in articles_with_analysis] builds
    before it appends. *)
Definition article_embed (it : item) : outcome value :=
  let article := item_article it in
  let analysis := item_analysis it in
  (sentiment <- getitem_str analysis "sentiment" ;;
   category <- getitem_str analysis "category" ;;
   emoji <- get_emoji sentiment category ;;
   let (sentiment_emoji, category_emoji) := emoji in
   sentiment' <- getitem_str analysis "sentiment" ;;
   color <- table_get color_map sentiment' 3447003%Z ;;
   sentiment'' <- getitem_str analysis "sentiment" ;;
   capitalized <- method_capitalize sentiment'' ;;
   category' <- getitem_str analysis "category" ;;
   reasoning <- method_get analysis "reasoning" (VStr EmptyString) ;;
   footer <- slice_value 100 reasoning ;;
   Returns
     (VDict
        [ ("title", VStr (category_emoji ++ " " ++ slice_to 200 (title article)));
          ("url", VStr (link article));
          ("color", VInt color);
          ("fields",
           VList
             [ VDict [ ("name", VStr "📰 Source");
                       ("value", VStr (source article));
                       ("inline", VBool true) ];
               VDict [ ("name", VStr (sentiment_emoji ++ " Sentiment"));
                       ("value", VStr capitalized);
                       ("inline", VBool true) ];
               VDict [ ("name", VStr "🏷️ Category");
                       ("value", category');
                       ("inline", VBool true) ];
               VDict [ ("name", VStr "📅 Published");
                       ("value", VStr (slice_to 50 (published article)));
                       ("inline", VBool false) ] ]);
          ("footer", VDict [ ("text", footer) ]) ]))%exc.

(** The body of the loop: the embed is appended to [embeds]. *)
Definition add_embed (embeds : list value) (it : item) : outcome (list value) :=
  (embed <- article_embed it ;;
   Returns (embeds ++ [embed])%list)%exc.

Definition format_discord_message (E : env) (articles_with_analysis : list item)
  : outcome value :=
  match articles_with_analysis with
  | [] =>
      Returns
        (VDict [ ("username", VStr "What is World is writng about India?");
                 ("avatar_url", VStr "https://flagcdn.com/w160/in.png");
                 ("embeds", VList [ empty_embed E ]) ])
  | _ =>
      (embeds <- for_each_raising articles_with_analysis
                   [ header_embed E (List.length articles_with_analysis) ]
                   add_embed ;;
       Returns
         (VDict [ ("username", VStr "What is world saying about India");
                  ("avatar_url", VStr "https://flagcdn.com/w160/in.png");
                  ("embeds", VList embeds) ]))%exc
  end.

(** ** [send_to_discord] *)

Definition webhook_request (self : bot) (payload : value) : request :=
  {| url := webhook_url self; headers := []; json := payload; timeout := 10 |}.

Definition send_to_discord (E : env) (self : bot) (payload : value) : py bool :=
  try_except
    (response <- post E (webhook_request self payload) ;;
     if (status_code response =? 204)%Z then
       print "✓ Successfully sent to Discord!" ;;
       ret true
     else
       print ("Discord webhook error: " ++ str_of_int (status_code response)
              ++ " - " ++ text response) ;;
       ret false)%py
    (fun e =>
       (print ("Error sending to Discord: " ++ exn_msg e) ;;
        ret false)%py).

End Bot.

(* ------------------------------------------------------------------------- *)
(** * What the specification says, in its own terms *)
(* ------------------------------------------------------------------------- *)

Module Spec.
Import Text Re Py Bot.

(** [kw] is in [s] as a whole word, whatever the case of its letters: [s]
    splits into [pre ++ w ++ post] where [w] is [kw] up to case, no word
    character ends [pre] and none starts [post]. *)
Definition whole_word_in (kw s : string) : Prop :=
  exists pre w post,
    s = pre ++ w ++ post
    /\ lower w = lower kw
    /\ word_at (last_char pre) = false
    /\ word_at (first_char post) = false.

(** [w] is in [s] as a substring. *)
Definition substring_of (w s : string) : Prop :=
  exists pre post, s = pre ++ w ++ post.

(** The articles of the entries of a feed that mention the keyword, in the
    order of the feed. *)
Definition matching (source_name : string) (entries : list entry) : list article :=
  map (article_of source_name) (filter mentions_india entries).

(** The articles of all sources, a source whose retrieval fails giving none. *)
Definition matching_all (E : env) (sources : list (string * string))
  : list article :=
  flat_map
    (fun src =>
       match feedparser_parse E (snd src) with
       | Returns entries => matching (fst src) entries
       | Raises _ => []
       end)
    sources.

(** No word of the list is in the text. *)
Definition none_in (words : list string) (text : string) : Prop :=
  forall w, In w words -> ~ substring_of w text.

(** How many words of the list occur in the text. *)
Definition occurring (words : list string) (text : string) : nat :=
  List.length (filter (fun w => contains w text) words).

(** The categories the fallback tests, in their order of priority. *)
Definition category_priority : list (string * list string) :=
  [ ("Politics", politics_words);
    ("Economy", economy_words);
    ("Sports", sports_words);
    ("Technology", technology_words);
    ("Defense", defense_words) ].

(** The first category of the table one of whose keywords is in the text. *)
Fixpoint first_category (table : list (string * list string)) (text : string)
  : string :=
  match table with
  | [] => "Other"
  | (c, words) :: rest =>
      if existsb (fun w => contains w text) words then c
      else first_category rest text
  end.

(** The enumerations of a Verdict. *)
Definition sentiments : list string := ["positive"; "negative"; "neutral"].
Definition categories : list string :=
  ["Politics"; "Economy"; "Sports"; "Technology"; "Defense"; "Diplomacy"; "Other"].
Definition fallback_categories : list string :=
  ["Politics"; "Economy"; "Sports"; "Technology"; "Defense"; "Other"].

Definition mem (s : string) (l : list string) : bool := existsb (String.eqb s) l.

(** [v['sentiment']] and [v['category']], when they are strings. *)
Definition field (k : string) (v : value) : option string :=
  match getitem_str v k with
  | Returns (VStr s) => Some s
  | _ => None
  end.


(** What the reply of the classification service decodes to: the steps of
    [analyze_with_ai] between the test of the status and the [return]. *)
Definition decoded_reply (E : env) (r : response) : outcome value :=
  (data <- json_loads E (text r) ;;
   c <- getitem_str data "content" ;;
   c0 <- getitem_0 c ;;
   t <- getitem_str c0 "text" ;;
   content <- method_strip t ;;
   json_loads E (strip (sub_fences content)))%exc.

(** What [analyze_with_ai] returns when its call has the outcome [o]: the
    decoded reply of a call that returned with status 200 and whose reply
    could be decoded, the fallback in every other case. *)
Definition analysis_for (E : env) (a : article) (o : outcome response) : value :=
  match o with
  | Returns r =>
      if (status_code r =? 200)%Z then
        match decoded_reply E r with
        | Returns v => v
        | Raises _ => fallback_analysis a
        end
      else fallback_analysis a
  | Raises _ => fallback_analysis a
  end.

(** An analysis the renderer can show: a dict whose sentiment and category
    are strings and whose reasoning, when it has one, is a string. *)
Definition showable (v : value) : bool :=
  match v with
  | VDict d =>
      match lookup "sentiment" d, lookup "category" d, lookup "reasoning" d with
      | Some (VStr _), Some (VStr _), (Some (VStr _) | None) => true
      | _, _, _ => false
      end
  | _ => false
  end.

(** [payload['embeds']] *)
Definition embeds_of (payload : value) : list value :=
  match getitem_str payload "embeds" with
  | Returns (VList l) => l
  | _ => []
  end.

(** [embed['description']] *)
Definition description_of (embed : value) : option string :=
  field "description" embed.

(** The line [send_to_discord] prints for the outcome of its call. *)
Definition publish_line (o : outcome response) : string :=
  match o with
  | Returns r =>
      if (status_code r =? 204)%Z then "✓ Successfully sent to Discord!"
      else "Discord webhook error: " ++ str_of_int (status_code r)
           ++ " - " ++ text r
  | Raises e => "Error sending to Discord: " ++ exn_msg e
  end.

(** The delivery is accepted: the call returned with status 204. *)
Definition accepted (o : outcome response) : bool :=
  match o with
  | Returns r => (status_code r =? 204)%Z
  | Raises _ => false
  end.

End Spec.

(* ------------------------------------------------------------------------- *)
(** * Concrete runs *)
(* ------------------------------------------------------------------------- *)

Module Scenario.
Import Text Re Py Bot.

Definition cup_entry : entry :=
  {| entry_title := Some "India wins cricket World Cup";
     entry_link := Some "https://example.org/cup";
     entry_published := None;
     entry_summary := Some "stadium celebrates historic win" |}.

Definition cup_article : article := article_of "The Guardian" cup_entry.

Definition indiana_entry : entry :=
  {| entry_title := Some "Indiana hosts conference";
     entry_link := None;
     entry_published := None;
     entry_summary := Some "India" |}.

Definition empty_article : article :=
  {| source := EmptyString;
     title := EmptyString;
     link := EmptyString;
     published := EmptyString;
     summary := EmptyString |}.

Definition article_titled (t : string) : article :=
  {| source := "Dawn (Pakistan)";
     title := t;
     link := EmptyString;
     published := EmptyString;
     summary := EmptyString |}.

(** An environment whose every HTTP call answers [r] and whose feeds hold
    [entries]. *)
Definition answering (r : outcome response) (entries : list entry) : env :=
  {| requests_post := fun _ _ => r;
     json_loads := Json.loads;
     feedparser_parse := fun _ => Returns entries;
     utcnow_isoformat := "2024-05-01T06:00:00" |}.

Definition timed_out : outcome response :=
  Raises {| exn_class := "ReadTimeout"; exn_msg := "Read timed out." |}.

(** The body of a reply of the classification service whose text is [t]. *)
Definition reply_body (t : string) : string :=
  "{" ++ Json.quoted "content" ++ ": [{" ++ Json.quoted "type" ++ ": "
  ++ Json.quoted "text" ++ ", " ++ Json.quoted "text" ++ ": "
  ++ Json.dumps_str t ++ "}]}".

(** A well-formed JSON reply outside the enumerations. *)
Definition mixed_text : string :=
  "{" ++ Json.quoted "sentiment" ++ ": " ++ Json.quoted "mixed" ++ ", "
  ++ Json.quoted "category" ++ ": " ++ Json.quoted "Health" ++ ", "
  ++ Json.quoted "reasoning" ++ ": " ++ Json.quoted "Covers a health scheme."
  ++ "}".


Definition mixed_verdict : value :=
  VDict [ ("sentiment", VStr "mixed");
          ("category", VStr "Health");
          ("reasoning", VStr "Covers a health scheme.") ].

Definition cup_item : item :=
  {| item_article := cup_article; item_analysis := fallback_analysis cup_article |}.

Definition the_bot : bot := IndiaNewsBot "https://discord.example/api/webhooks/1".

End Scenario.

(* ------------------------------------------------------------------------- *)
(** * The orchestrator: [run] *)
(* ------------------------------------------------------------------------- *)

Module Orchestrator.
Import Text Re Py Bot.

(** [s * n] *)
Fixpoint repeat_string (s : string) (n : nat) : string :=
  match n with
  | 0 => EmptyString
  | S n' => s ++ repeat_string s n'
  end.

Section Run.

(** [str(v)] for an object [v] that is not a string, as an f-string shows
    it. *)
Variable str_of_object : value -> string.




End Run.

End Orchestrator.

(* ------------------------------------------------------------------------- *)
(** * The behaviour of the code, in terms of its inputs *)
(* ------------------------------------------------------------------------- *)

Module Behaviour.
Import Text Re Py Bot Spec.

(** A key a dict lookup accepts: every object but a list or a dict. *)
Definition hashable (v : value) : bool :=
  match v with
  | VList _ | VDict _ => false
  | _ => true
  end.

(** The analyses [format_discord_message] renders: a dict whose sentiment is
    a string, whose category is hashable and whose reasoning, when it has
    one, is a string or a list. *)
Definition renderable (v : value) : bool :=
  match v with
  | VDict d =>
      match lookup "sentiment" d, lookup "category" d with
      | Some (VStr _), Some c =>
          hashable c
          && match lookup "reasoning" d with
             | None | Some (VStr _) | Some (VList _) => true
             | _ => false
             end
      | _, _ => false
      end
  | _ => false
  end.


(** [data['content'][0]['text']] when [data] has that shape and the text is
    a string. *)
Definition content_text (data : value) : option string :=
  match data with
  | VDict d =>
      match lookup "content" d with
      | Some (VList (VDict block :: _)) =>
          match lookup "text" block with
          | Some (VStr t) => Some t
          | _ => None
          end
      | _ => None
      end
  | _ => None
  end.

(** The lines [analyze_with_ai] prints when its call has the outcome [o]. *)
Definition analysis_lines (E : env) (o : outcome response) : list string :=
  match o with
  | Returns r =>
      if (status_code r =? 200)%Z then
        match decoded_reply E r with
        | Returns _ => []
        | Raises e => ["AI analysis error: " ++ exn_msg e]
        end
      else ["API error: " ++ str_of_int (status_code r)]
  | Raises e => ["AI analysis error: " ++ exn_msg e]
  end.



(** Every character of [s] is whitespace. *)
Fixpoint all_space (s : string) : bool :=
  match s with
  | EmptyString => true
  | String c r => is_space c && all_space r
  end.

(** [s] has no backquote. *)
Fixpoint no_backquote (s : string) : bool :=
  match s with
  | EmptyString => true
  | String c r => negb (Ascii.eqb c "`") && no_backquote r
  end.

(** [s] between a [```json] fence and a closing fence, with the whitespace
    [ws] and [ws'] inside the fences. *)
Definition fenced (ws s ws' : string) : string :=
  fence_json ++ ws ++ s ++ ws' ++ fence.

(** The URL of the classification service. *)
Definition classification_url : string := "https://api.anthropic.com/v1/messages".

(** The icon of a sentiment: the white circle for one that is not in the
    table. *)
Definition sentiment_icon (s : string) : string :=
  match assoc s sentiment_emoji with
  | Some icon => icon
  | None => "⚪"
  end.

(** The icon of a category: the newspaper for one that is not in the table,
    a string or not. *)
Definition category_icon (c : value) : string :=
  match c with
  | VStr k =>
      match assoc k category_emoji with
      | Some icon => icon
      | None => "📰"
      end
  | _ => "📰"
  end.

(** The colour of a sentiment: blue for one that is not in the table. *)
Definition colour_of (s : string) : Z :=
  match assoc s color_map with
  | Some colour => colour
  | None => 3447003%Z
  end.

(** The text of the footer: the reasoning cut to 100 characters (or to 100
    elements when it is a list), the empty string when there is none. *)
Definition footer_of (d : list (string * value)) : value :=
  match lookup "reasoning" d with
  | Some (VStr r) => VStr (slice_to 100 r)
  | Some (VList l) => VList (firstn 100 l)
  | _ => VStr EmptyString
  end.

(** The block of an article whose analysis has the sentiment [s], the
    category [c] and the footer [foot]. *)
Definition article_block (a : article) (s : string) (c foot : value) : value :=
  VDict
    [ ("title", VStr (category_icon c ++ " " ++ slice_to 200 (title a)));
      ("url", VStr (link a));
      ("color", VInt (colour_of s));
      ("fields",
       VList
         [ VDict [ ("name", VStr "📰 Source");
                   ("value", VStr (source a));
                   ("inline", VBool true) ];
           VDict [ ("name", VStr (sentiment_icon s ++ " Sentiment"));
                   ("value", VStr (capitalize s));
                   ("inline", VBool true) ];
           VDict [ ("name", VStr "🏷️ Category");
                   ("value", c);
                   ("inline", VBool true) ];
           VDict [ ("name", VStr "📅 Published");
                   ("value", VStr (slice_to 50 (published a)));
                   ("inline", VBool false) ] ]);
      ("footer", VDict [ ("text", foot) ]) ].

(** The block of an item, when its analysis is a dict with a string for
    sentiment and a category. *)
Definition block_of (it : item) : option value :=
  match item_analysis it with
  | VDict d =>
      match lookup "sentiment" d, lookup "category" d with
      | Some (VStr s), Some c =>
          Some (article_block (item_article it) s c (footer_of d))
      | _, _ => None
      end
  | _ => None
  end.

(** The world after the lines [out] were printed and the calls [calls]
    made. *)
Definition after (w : world) (out : list string) (calls : list request) : world :=
  {| stdout := (stdout w ++ out)%list; posted := (posted w ++ calls)%list |}.

(** The items a run classifies by the fallback alone. *)
Definition fallback_items (articles : list article) : list item :=
  map (fun a => {| item_article := a; item_analysis := fallback_analysis a |})
    articles.

End Behaviour.

(* ------------------------------------------------------------------------- *)
(** * More concrete runs *)
(* ------------------------------------------------------------------------- *)

Module Runs.
Import Text Re Py Bot Scenario Behaviour.


(** Only the feed of Dawn can be retrieved; it has two entries. *)
Definition dawn_only : env :=
  {| requests_post := fun _ _ => timed_out;
     json_loads := Json.loads;
     feedparser_parse :=
       fun u =>
         if String.eqb u "https://www.dawn.com/feeds/home"
         then Returns [indiana_entry; cup_entry]
         else Raises {| exn_class := "URLError"; exn_msg := "unreachable" |};
     utcnow_isoformat := "2024-05-01T06:00:00" |}.


(** The service wraps its reply in a code fence. *)
Definition fenced_reply : env :=
  answering
    (Returns {| status_code := 200;
                text := reply_body (fenced nl mixed_text nl) |})
    [cup_entry].





Definition long_title_item : item :=
  {| item_article :=
       {| source := "The Guardian";
          title := "India " ++ Orchestrator.repeat_string "ab" 120;
          link := "https://example.org/long";
          published := "Mon, 06 May 2024 10:15:00 GMT, updated on Tue, 07 May";
          summary := EmptyString |};
     item_analysis := mixed_verdict |}.

End Runs.

(* ------------------------------------------------------------------------- *)
(** * The code over any alphabet and any case table *)
(* ------------------------------------------------------------------------- *)

(** The tables of [Text] are those of ASCII.  On other text Python follows
    the Unicode database: [\w] holds of letters and digits of every script,
    [re.IGNORECASE] lets a literal match the letters of its case class,
    [str.lower()] has its own table, and a slice counts characters.  Here
    the functions that read those tables take them as parameters, so that
    what is proved of them holds of the tables Python has. *)
Module General.
Import Text Re Py Bot.

Section Alphabet.

(** The characters of a [str]. *)
Variable char : Type.
(** [\w] on a character. *)
Variable is_word : char -> bool.
(** A literal of the pattern against a character of the subject, under the
    flags of the search. *)
Variable same_letter : ascii -> char -> bool.

Definition word_at_in (c : option char) : bool :=
  match c with
  | Some x => is_word x
  | None => false
  end.

Definition first_of (s : list char) : option char :=
  match s with
  | [] => None
  | c :: _ => Some c
  end.

Fixpoint last_of (s : list char) : option char :=
  match s with
  | [] => None
  | [c] => Some c
  | _ :: r => last_of r
  end.

(** The character before the position reached after reading [w]. *)
Definition last_or_in (prev : option char) (w : list char) : option char :=
  match last_of w with
  | Some c => Some c
  | None => prev
  end.

(** [Re.match_here] over the alphabet. *)
Fixpoint match_here_in (p : pattern) (prev : option char) (s : list char)
  : bool :=
  match p with
  | [] => true
  | WordBoundary :: p' =>
      xorb (word_at_in prev) (word_at_in (first_of s))
      && match_here_in p' prev s
  | Literal a :: p' =>
      match s with
      | [] => false
      | c :: r => same_letter a c && match_here_in p' (Some c) r
      end
  end.

Fixpoint search_from_in (p : pattern) (prev : option char) (s : list char)
  : bool :=
  match_here_in p prev s
  || match s with
     | [] => false
     | c :: r => search_from_in p (Some c) r
     end.

(** [re.search(p, s, flags)] as a truth value, over the alphabet. *)
Definition search_in (p : pattern) (s : list char) : bool :=
  search_from_in p None s.

(** [w] is [kw] letter by letter, up to what the flags allow. *)
Fixpoint spells (kw : string) (w : list char) : Prop :=
  match kw, w with
  | EmptyString, [] => True
  | String a kw', c :: w' => same_letter a c = true /\ spells kw' w'
  | _, _ => False
  end.

(** [kw] is in [s] as a whole word: [s] splits into [pre ++ w ++ post] where
    [w] spells [kw], no word character ends [pre] and none starts [post]. *)
Definition whole_word_among (kw : string) (s : list char) : Prop :=
  exists pre w post,
    s = (pre ++ w ++ post)%list
    /\ spells kw w
    /\ word_at_in (last_of pre) = false
    /\ word_at_in (first_of post) = false.

End Alphabet.

Arguments first_of {char} s.
Arguments last_of {char} s.
Arguments last_or_in {char} prev w.
Arguments word_at_in {char} is_word c.
Arguments match_here_in {char} is_word same_letter p prev s.
Arguments search_from_in {char} is_word same_letter p prev s.
Arguments search_in {char} is_word same_letter p s.
Arguments spells {char} same_letter kw w.
Arguments whole_word_among {char} is_word same_letter kw s.

Section Library.

(** The test of line 29 on a title:
    [re.search(r'\bIndia\b', title, re.IGNORECASE)] as a truth value. *)
Variable test : string -> bool.
(** [s[:n]] *)
Variable slice : nat -> string -> string.
(** [s.lower()] *)
Variable str_lower : string -> string.

(** [Bot.article_of] *)
Definition article_of_with (source_name : string) (e : entry) : article :=
  {| source := source_name;
     title := get (entry_title e) EmptyString;
     link := get (entry_link e) EmptyString;
     published := get (entry_published e) "Date not available";
     summary := slice 300 (get (entry_summary e) EmptyString) |}.

(** [Bot.fetch_entry] *)
Definition fetch_entry_with (source_name : string) (all_articles : list article)
  (e : entry) : py (list article) :=
  let title := get (entry_title e) EmptyString in
  if test title then
    let article := article_of_with source_name e in
    (print ("  ✓ Found: " ++ slice 60 title ++ "...") ;;
     ret (all_articles ++ [article])%list)%py
  else ret all_articles.

(** [Bot.fetch_source] *)
Definition fetch_source_with (E : env) (all_articles : list article)
  (src : string * string) : py (list article) :=
  let (source_name, rss_url) := src in
  try_except
    (print ("Fetching from " ++ source_name ++ "...") ;;
     entries <- lift (feedparser_parse E rss_url) ;;
     for_each entries all_articles (fetch_entry_with source_name))%py
    (fun e =>
       (print ("Error fetching from " ++ source_name ++ ": " ++ exn_msg e) ;;
        ret all_articles)%py).

(** [fetch_articles] *)
Definition fetch_articles_with (E : env) (self : bot) : py (list article) :=
  for_each (news_sources self) [] (fetch_source_with E).

(** [text = title_lower + " " + summary_lower] *)
Definition text_of_with (a : article) : string :=
  let title_lower := str_lower (title a) in
  let summary_lower := str_lower (summary a) in
  title_lower ++ " " ++ summary_lower.

(** [fallback_analysis] *)
Definition fallback_analysis_with (a : article) : value :=
  let text := text_of_with a in
  let sentiment := sentiment_of_text text in
  let category := category_of_text text in
  VDict [ ("sentiment", VStr sentiment);
          ("category", VStr category);
          ("reasoning", VStr "Keyword-based analysis") ].

(** The articles of the entries of a feed that pass the test, in the order
    of the feed. *)
Definition matching_with (source_name : string) (entries : list entry)
  : list article :=
  map (article_of_with source_name)
    (filter (fun e => test (get (entry_title e) EmptyString)) entries).

(** The articles of all sources, a source whose retrieval fails giving
    none. *)
Definition matching_all_with (E : env) (sources : list (string * string))
  : list article :=
  flat_map
    (fun src =>
       match feedparser_parse E (snd src) with
       | Returns entries => matching_with (fst src) entries
       | Raises _ => []
       end)
    sources.

End Library.

(** The ASCII alphabet: a character is a byte, the tables are those of
    [Text]. *)
Definition ascii_letter (p c : ascii) : bool :=
  Ascii.eqb (lower_char c) (lower_char p).

(** The test of line 29 over an alphabet whose characters [characters]
    reads off a title. *)
Definition india_test {char : Type} (characters : string -> list char)
  (is_word : char -> bool) (same_letter : ascii -> char -> bool)
  (title : string) : bool :=
  search_in is_word same_letter india_pattern (characters title).

(** The test of line 29 over the ASCII alphabet. *)
Definition ascii_test : string -> bool :=
  india_test list_ascii_of_string is_word ascii_letter.

End General.

(* ------------------------------------------------------------------------- *)
(** * The text on which the tables of [Text] are those of Python *)
(* ------------------------------------------------------------------------- *)

Module Domain.
Import Text Re Py Bot Spec Behaviour.

(** Every character of [s] is an ASCII character. *)
Fixpoint is_ascii (s : string) : bool :=
  match s with
  | EmptyString => true
  | String c r => (code c <? 128) && is_ascii r
  end.





(** A string is ASCII text; any other object is shown by [str]. *)
Definition plain (v : value) : bool :=
  match v with
  | VStr s => is_ascii s
  | _ => true
  end.


(** The texts the block of an item cuts are ASCII text: the title and the
    date of its article and, when it is a string, the reasoning. *)
Definition ascii_item (it : item) : bool :=
  is_ascii (title (item_article it))
  && is_ascii (published (item_article it))
  && match method_get (item_analysis it) "reasoning" VNone with
     | Returns v => plain v
     | Raises _ => true
     end.

End Domain.

(* ------------------------------------------------------------------------- *)
(** * Facts about the text primitives and the patterns *)
(* ------------------------------------------------------------------------- *)

Module TextFacts.
Import Text Re Py Bot Spec.

(** ** [in] is the substring test *)

Lemma prefix_spec w : forall s, prefix w s = true <-> exists post, s = w ++ post.
Proof.
  induction w as [|a w IH]; intros s.
  - split; [intros _; exists s; reflexivity | intros _; destruct s; reflexivity].
  - destruct s as [|c s]; simpl.
    + split; [discriminate | intros (post & H); discriminate].
    + destruct (ascii_dec a c) as [-> | Hne].
      * rewrite IH. split; intros (post & H); exists post.
        -- now rewrite H.
        -- now injection H.
      * split; [discriminate|]. intros (post & H). injection H as H _.
        congruence.
Qed.

Lemma contains_spec w : forall s, contains w s = true <-> substring_of w s.
Proof.
  unfold substring_of. induction s as [|c s IH]; cbn [contains].
  - rewrite orb_false_r, prefix_spec. split.
    + intros (post & H). exists EmptyString, post. exact H.
    + intros (pre & post & H). destruct pre; [|discriminate]. exists post. exact H.
  - rewrite orb_true_iff, prefix_spec, IH. split.
    + intros [(post & H) | (pre & post & H)].
      * exists EmptyString, post. exact H.
      * exists (String c pre), post. simpl. now rewrite H.
    + intros (pre & post & H). destruct pre as [|c' pre].
      * left. exists post. exact H.
      * right. injection H as _ H. exists pre, post. exact H.
Qed.

(** ** Case and word characters *)

Lemma is_word_lower_char c : is_word (lower_char c) = is_word c.
Proof. destruct c as [[] [] [] [] [] [] [] []]; reflexivity. Qed.

Lemma is_word_same_lower a c :
  lower_char c = lower_char a -> is_word c = is_word a.
Proof.
  intros H. rewrite <- (is_word_lower_char c), H. apply is_word_lower_char.
Qed.

Lemma last_char_cons c w :
  last_char (String c w) = last_or (Some c) w.
Proof.
  unfold last_or. revert c. induction w as [|a w IH]; intros c; [reflexivity|].
  change (last_char (String c (String a w))) with (last_char (String a w)).
  rewrite IH. destruct (last_char w); reflexivity.
Qed.

Lemma last_or_cons prev c w : last_or prev (String c w) = last_or (Some c) w.
Proof.
  unfold last_or at 1. rewrite last_char_cons. unfold last_or.
  destruct (last_char w); reflexivity.
Qed.

(** ** A search for [\bW\b] finds the whole-word occurrences of [W] *)

(** The literals of [kw] read a string equal to [kw] up to case. *)
Lemma match_literals kw : forall p prev s,
  match_here IGNORECASE (literals kw ++ p)%list prev s = true
  <-> exists w rest,
        s = w ++ rest /\ lower w = lower kw
        /\ match_here IGNORECASE p (last_or prev w) rest = true.
Proof.
  induction kw as [|a kw IH]; intros p prev s; simpl.
  - split.
    + intros H. exists EmptyString, s. auto.
    + intros (w & rest & -> & Hw & H). destruct w; [exact H | discriminate].
  - destruct s as [|c r].
    + split; [discriminate|].
      intros (w & rest & Hs & Hw & _). destruct w; simpl in *; discriminate.
    + rewrite andb_true_iff, IH. unfold char_match. simpl.
      rewrite Ascii.eqb_eq. split.
      * intros (Hc & w & rest & -> & Hw & H).
        exists (String c w), rest. rewrite last_or_cons.
        simpl. rewrite Hc, Hw. auto.
      * intros (w & rest & Hs & Hw & H). destruct w as [|c' w]; [discriminate|].
        simpl in Hs, Hw. injection Hs as <- ->. injection Hw as Hc Hw.
        rewrite last_or_cons in H. split; [exact Hc|]. exists w, rest. auto.
Qed.

(** A search succeeds when the pattern matches after some prefix. *)
Lemma search_from_spec p : forall prev s,
  search_from IGNORECASE p prev s = true
  <-> exists pre post,
        s = pre ++ post /\ match_here IGNORECASE p (last_or prev pre) post = true.
Proof.
  intros prev s. revert prev. induction s as [|c r IH]; intros prev; simpl.
  - rewrite orb_false_r. split.
    + intros H. exists EmptyString, EmptyString. auto.
    + intros (pre & post & Hs & H). destruct pre; [|discriminate].
      destruct post; [|discriminate]. exact H.
  - rewrite orb_true_iff, IH. split.
    + intros [H | (pre & post & -> & H)].
      * exists EmptyString, (String c r). auto.
      * exists (String c pre), post. rewrite last_or_cons. auto.
    + intros (pre & post & Hs & H). destruct pre as [|c' pre].
      * left. simpl in Hs. subst post. exact H.
      * right. simpl in Hs. injection Hs as <- ->. rewrite last_or_cons in H.
        exists pre, post. auto.
Qed.

Lemma last_or_None s : last_or None s = last_char s.
Proof. unfold last_or. destruct (last_char s); reflexivity. Qed.

Lemma first_char_lower s : first_char (lower s) = option_map lower_char (first_char s).
Proof. destruct s; reflexivity. Qed.

Lemma last_char_lower s : last_char (lower s) = option_map lower_char (last_char s).
Proof.
  induction s as [|c s IH]; [reflexivity|].
  simpl lower. rewrite !last_char_cons. unfold last_or. rewrite IH.
  destruct (last_char s); reflexivity.
Qed.

Lemma word_at_lower o : word_at (option_map lower_char o) = word_at o.
Proof. destruct o; simpl; [apply is_word_lower_char | reflexivity]. Qed.

Lemma same_lower_first w kw :
  lower w = lower kw -> word_at (first_char w) = word_at (first_char kw).
Proof.
  intros H. rewrite <- (word_at_lower (first_char w)), <- first_char_lower, H.
  rewrite first_char_lower. apply word_at_lower.
Qed.

Lemma same_lower_last w kw :
  lower w = lower kw -> word_at (last_char w) = word_at (last_char kw).
Proof.
  intros H. rewrite <- (word_at_lower (last_char w)), <- last_char_lower, H.
  rewrite last_char_lower. apply word_at_lower.
Qed.

Lemma first_char_app w r :
  word_at (first_char w) = true -> first_char (w ++ r) = first_char w.
Proof. destruct w; [discriminate | reflexivity]. Qed.

Lemma last_or_word prev w :
  word_at (last_char w) = true -> last_or prev w = last_char w.
Proof. unfold last_or. destruct (last_char w); [reflexivity | discriminate]. Qed.

Lemma match_word_pattern kw prev s :
  word_at (first_char kw) = true ->
  word_at (last_char kw) = true ->
  match_here IGNORECASE (word_pattern kw) prev s = true
  <-> exists w rest,
        s = w ++ rest /\ lower w = lower kw
        /\ word_at prev = false /\ word_at (first_char rest) = false.
Proof.
  intros Hf Hl. unfold word_pattern.
  change (match_here IGNORECASE
            (WordBoundary :: literals kw ++ [WordBoundary])%list prev s)
    with (xorb (word_at prev) (word_at (first_char s))
          && match_here IGNORECASE (literals kw ++ [WordBoundary])%list prev s).
  rewrite andb_true_iff, match_literals. split.
  - intros (Hb & w & rest & -> & Hw & H).
    pose proof (same_lower_first _ _ Hw) as Hwf. rewrite Hf in Hwf.
    pose proof (same_lower_last _ _ Hw) as Hwl. rewrite Hl in Hwl.
    rewrite (first_char_app _ rest Hwf), Hwf in Hb.
    simpl in H. rewrite (last_or_word prev _ Hwl), Hwl, andb_true_r in H.
    exists w, rest. repeat split; trivial.
    + destruct (word_at prev); [discriminate | reflexivity].
    + destruct (word_at (first_char rest)); [discriminate | reflexivity].
  - intros (w & rest & -> & Hw & Hp & Hr).
    pose proof (same_lower_first _ _ Hw) as Hwf. rewrite Hf in Hwf.
    pose proof (same_lower_last _ _ Hw) as Hwl. rewrite Hl in Hwl.
    rewrite (first_char_app _ rest Hwf), Hwf, Hp. split; [reflexivity|].
    exists w, rest. repeat split; trivial.
    simpl. rewrite (last_or_word prev _ Hwl), Hwl, Hr. reflexivity.
Qed.

Lemma search_word_pattern kw s :
  word_at (first_char kw) = true ->
  word_at (last_char kw) = true ->
  search (word_pattern kw) s IGNORECASE = true <-> whole_word_in kw s.
Proof.
  intros Hf Hl. unfold search, whole_word_in. rewrite search_from_spec. split.
  - intros (pre & post0 & -> & H).
    apply (match_word_pattern _ _ _ Hf Hl) in H.
    destruct H as (w & rest & -> & Hw & Hp & Hr).
    rewrite last_or_None in Hp. exists pre, w, rest. auto.
  - intros (pre & w & post & -> & Hw & Hp & Hr).
    exists pre, (w ++ post). split; [reflexivity|].
    apply (match_word_pattern _ _ _ Hf Hl).
    exists w, post. rewrite last_or_None. auto.
Qed.

End TextFacts.

(* ------------------------------------------------------------------------- *)
(** * Facts about the bot *)
(* ------------------------------------------------------------------------- *)

Module BotFacts.
Import Text Re Py Bot Spec TextFacts.

(** ** The counts and the tests of the fallback *)

Lemma count_in_occurring words text : count_in words text = occurring words text.
Proof.
  unfold occurring. induction words as [|w ws IH]; simpl; [reflexivity|].
  destruct (contains w text); simpl; now rewrite IH.
Qed.

Lemma any_in_existsb words text :
  any_in words text = existsb (fun w => contains w text) words.
Proof.
  induction words as [|w ws IH]; simpl; [reflexivity|].
  destruct (contains w text); [reflexivity | exact IH].
Qed.

Lemma occurring_le words text : occurring words text <= List.length words.
Proof. unfold occurring. apply filter_length_le. Qed.

Lemma category_first text :
  category_of_text text = first_category category_priority text.
Proof.
  unfold category_of_text, category_priority, first_category.
  rewrite !any_in_existsb. reflexivity.
Qed.

(** ** The console *)

Lemma printed_nil w : printed w [] = w.
Proof. destruct w. unfold printed. simpl. now rewrite app_nil_r. Qed.

Lemma printed_app w o1 o2 : printed (printed w o1) o2 = printed w (o1 ++ o2)%list.
Proof. unfold printed. simpl. now rewrite app_assoc. Qed.

Lemma print_printed line w : print line w = (Returns tt, printed w [line]).
Proof. reflexivity. Qed.

(** ** [fetch_articles]: the loops return the matching articles and only
    print *)

Lemma fetch_entries_spec src es : forall acc w,
  exists out,
    for_each es acc (fetch_entry src) w
    = (Returns (acc ++ matching src es)%list, printed w out).
Proof.
  unfold matching. induction es as [|e es IH]; intros acc w; cbn [for_each].
  - exists []. simpl. now rewrite app_nil_r, printed_nil.
  - unfold bind at 1. unfold fetch_entry at 1. fold (mentions_india e).
    cbn [filter map]. destruct (mentions_india e).
    + unfold bind at 1. rewrite print_printed. unfold ret at 1.
      match goal with
      | |- context [for_each es ?acc' _ ?w'] => destruct (IH acc' w') as (out & ->)
      end.
      eexists. rewrite printed_app, <- app_assoc. reflexivity.
    + unfold ret at 1. destruct (IH acc w) as (out & ->). exists out. reflexivity.
Qed.

Section InEnvironment.

Variable E : env.

Lemma fetch_source_spec acc src w :
  exists out,
    fetch_source E acc src w
    = (Returns (acc ++ matching_all E [src])%list, printed w out).
Proof.
  destruct src as (name, url). unfold matching_all, fetch_source, try_except.
  cbn [flat_map fst snd]. rewrite app_nil_r.
  unfold bind at 1. rewrite print_printed. unfold bind at 1, lift.
  destruct (feedparser_parse E url) as [es | e].
  - match goal with
    | |- context [for_each es acc _ ?w'] =>
        destruct (fetch_entries_spec name es acc w') as (out & ->)
    end.
    rewrite printed_app. eexists. reflexivity.
  - unfold bind. rewrite print_printed, printed_app. unfold ret.
    rewrite app_nil_r. eexists. reflexivity.
Qed.

Lemma matching_all_cons src srcs :
  matching_all E (src :: srcs) = (matching_all E [src] ++ matching_all E srcs)%list.
Proof. unfold matching_all. cbn [flat_map]. now rewrite app_nil_r. Qed.

Lemma fetch_sources_spec srcs : forall acc w,
  exists out,
    for_each srcs acc (fetch_source E) w
    = (Returns (acc ++ matching_all E srcs)%list, printed w out).
Proof.
  induction srcs as [|src srcs IH]; intros acc w; cbn [for_each].
  - exists []. unfold ret. cbn [matching_all flat_map].
    now rewrite app_nil_r, printed_nil.
  - unfold bind. destruct (fetch_source_spec acc src w) as (o1 & ->).
    destruct (IH (acc ++ matching_all E [src])%list (printed w o1)) as (o2 & ->).
    exists (o1 ++ o2)%list.
    now rewrite printed_app, <- app_assoc, <- matching_all_cons.
Qed.

Lemma fetch_articles_spec self w :
  exists out,
    fetch_articles E self w
    = (Returns (matching_all E (news_sources self)), printed w out).
Proof. apply (fetch_sources_spec (news_sources self) [] w). Qed.

(** ** [analyze_with_ai]: every path ends in a [return] *)

(** One step of a [try] block: when it raises, the handler ends the proof. *)
Ltac step_or_handler o :=
  destruct o as [? | ?]; [ | reflexivity ].

Lemma analyze_with_ai_value a w :
  fst (analyze_with_ai E a w)
  = Returns (analysis_for E a
               (requests_post E (posted w) (classification_request a))).
Proof.
  unfold analyze_with_ai, analysis_for, decoded_reply.
  unfold try_except, bind, post, lift, and_then.
  step_or_handler (requests_post E (posted w) (classification_request a)).
  destruct (status_code _ =? 200)%Z; [|reflexivity].
  repeat match goal with
         | |- context [match ?o with Returns _ => _ | Raises _ => _ end] =>
             step_or_handler o
         end.
  reflexivity.
Qed.

(** ** [send_to_discord]: one call, one line, a truth value *)

Lemma send_to_discord_spec self payload w :
  let o := requests_post E (posted w) (webhook_request self payload) in
  send_to_discord E self payload w
  = (Returns (accepted o),
     {| stdout := (stdout w ++ [publish_line o])%list;
        posted := (posted w ++ [webhook_request self payload])%list |}).
Proof.
  unfold send_to_discord, try_except, bind, post, accepted, publish_line. simpl.
  destruct (requests_post E (posted w) (webhook_request self payload)) as [r | e];
    [|reflexivity].
  destruct (status_code r =? 204)%Z; reflexivity.
Qed.

End InEnvironment.

(** ** [format_discord_message]: one block per item *)

Lemma article_embed_showable it :
  showable (item_analysis it) = true -> exists b, article_embed it = Returns b.
Proof.
  unfold showable, article_embed.
  destruct (item_analysis it) as [| | | | | |d]; try discriminate.
  unfold getitem_str, method_get.
  destruct (lookup "sentiment" d) as [[| | | |s| |]|]; try discriminate.
  destruct (lookup "category" d) as [[| | | |c| |]|]; try discriminate.
  cbn [and_then]. unfold get_emoji, table_get.
  destruct (assoc s sentiment_emoji), (assoc c category_emoji), (assoc s color_map);
    cbn [and_then method_capitalize];
    destruct (lookup "reasoning" d) as [[| | | |r| |]|]; try discriminate;
    intros _; cbn [and_then slice_value]; eexists; reflexivity.
Qed.

Lemma embeds_loop items : forall acc,
  Forall (fun it => showable (item_analysis it) = true) items ->
  exists blocks,
    for_each_raising items acc add_embed = Returns (acc ++ blocks)%list
    /\ Forall2 (fun it b => article_embed it = Returns b) items blocks.
Proof.
  induction items as [|it items IH]; intros acc Hall; cbn [for_each_raising].
  - exists []. rewrite app_nil_r. split; [reflexivity | constructor].
  - inversion Hall as [|? ? Hit Hrest]; subst.
    destruct (article_embed_showable it Hit) as (b & Hb).
    unfold add_embed at 1. rewrite Hb. cbn [and_then].
    destruct (IH (acc ++ [b])%list Hrest) as (blocks & -> & Hblocks).
    exists (b :: blocks). rewrite <- app_assoc. split; [reflexivity|].
    constructor; assumption.
Qed.

Lemma format_nonempty E it items :
  Forall (fun it => showable (item_analysis it) = true) (it :: items) ->
  exists payload blocks,
    format_discord_message E (it :: items) = Returns payload
    /\ embeds_of payload = header_embed E (List.length (it :: items)) :: blocks
    /\ Forall2 (fun it b => article_embed it = Returns b) (it :: items) blocks.
Proof.
  intros Hall. unfold format_discord_message.
  destruct (embeds_loop (it :: items) [header_embed E (List.length (it :: items))] Hall)
    as (blocks & Hloop & Hblocks).
  rewrite Hloop. cbn [and_then].
  eexists. exists blocks. split; [reflexivity|]. split; [reflexivity | exact Hblocks].
Qed.

(** ** [fallback_analysis]: the chain of tests *)

Lemma existsb_contains words text :
  existsb (fun w => contains w text) words = true
  <-> exists w, In w words /\ substring_of w text.
Proof.
  rewrite existsb_exists. split; intros (w & Hin & H); exists w; split; trivial;
    now apply contains_spec.
Qed.

Lemma existsb_contains_false words text :
  existsb (fun w => contains w text) words = false <-> none_in words text.
Proof.
  unfold none_in. rewrite <- not_true_iff_false, existsb_contains. split.
  - intros H w Hin Hsub. apply H. now exists w.
  - intros H (w & Hin & Hsub). exact (H w Hin Hsub).
Qed.

Lemma first_category_cases table text :
  (exists before c words after,
      table = (before ++ (c, words) :: after)%list
      /\ Forall (fun cw => none_in (snd cw) text) before
      /\ (exists w, In w words /\ substring_of w text)
      /\ first_category table text = c)
  \/ (Forall (fun cw => none_in (snd cw) text) table
      /\ first_category table text = "Other").
Proof.
  induction table as [|(c, words) rest IH]; cbn [first_category].
  - right. split; [constructor | reflexivity].
  - destruct (existsb (fun w => contains w text) words) eqn:Hc.
    + left. exists [], c, words, rest. repeat split; trivial.
      now apply existsb_contains.
    + apply existsb_contains_false in Hc.
      destruct IH as [(before & c' & words' & after & -> & Hb & Hw & Hr) | (Hall & Hr)].
      * left. exists ((c, words) :: before), c', words', after.
        repeat split; trivial. constructor; assumption.
      * right. split; [constructor; assumption | exact Hr].
Qed.

Lemma sentiment_in_enumeration text : mem (sentiment_of_text text) sentiments = true.
Proof.
  unfold sentiment_of_text.
  destruct (_ <? _); [reflexivity|]. destruct (_ <? _); reflexivity.
Qed.

Lemma category_in_fallback_categories text :
  mem (category_of_text text) fallback_categories = true.
Proof.
  unfold category_of_text.
  repeat (match goal with |- context [if ?b then _ else _] => destruct b end;
          [reflexivity|]).
  reflexivity.
Qed.

Lemma mem_In s l : mem s l = true <-> In s l.
Proof.
  unfold mem. rewrite existsb_exists. split.
  - intros (x & Hin & Heq). apply String.eqb_eq in Heq. now subst.
  - intros Hin. exists s. split; [exact Hin | apply String.eqb_refl].
Qed.



(** ** The model at work *)

Example fenced_reply_is_unwrapped :
  strip (sub_fences ("```json" ++ nl ++ Scenario.mixed_text ++ nl ++ "```"))
  = Scenario.mixed_text.
Proof. reflexivity. Qed.

Example fenced_reply_is_decoded :
  fst (analyze_with_ai
         (Scenario.answering
            (Returns {| status_code := 200;
                        text := Scenario.reply_body
                                  ("```json" ++ nl ++ Scenario.mixed_text
                                   ++ nl ++ "```") |})
            [])
         Scenario.cup_article world0)
  = Returns Scenario.mixed_verdict.
Proof. vm_compute. reflexivity. Qed.

Example reply_without_content_falls_back :
  analyze_with_ai
    (Scenario.answering (Returns {| status_code := 200; text := "[]" |}) [])
    Scenario.empty_article world0
  = (Returns (fallback_analysis Scenario.empty_article),
     {| stdout :=
          ["AI analysis error: list indices must be integers or slices, not str"];
        posted := [classification_request Scenario.empty_article] |}).
Proof. vm_compute. reflexivity. Qed.

Example server_error_falls_back :
  analyze_with_ai
    (Scenario.answering (Returns {| status_code := 500; text := "oops" |}) [])
    Scenario.empty_article world0
  = (Returns (VDict [ ("sentiment", VStr "neutral");
                      ("category", VStr "Other");
                      ("reasoning", VStr "Keyword-based analysis") ]),
     {| stdout := ["API error: 500"];
        posted := [classification_request Scenario.empty_article] |}).
Proof. vm_compute. reflexivity. Qed.

Example one_failing_feed_is_skipped :
  fetch_articles
    {| requests_post := fun _ _ => Scenario.timed_out;
       json_loads := Json.loads;
       feedparser_parse :=
         fun u =>
           if String.eqb u "https://www.dawn.com/feeds/home"
           then Returns [Scenario.indiana_entry; Scenario.cup_entry]
           else Raises {| exn_class := "URLError"; exn_msg := "unreachable" |};
       utcnow_isoformat := "2024-05-01T06:00:00" |}
    Scenario.the_bot world0
  = (Returns [article_of "Dawn (Pakistan)" Scenario.cup_entry],
     {| stdout :=
          [ "Fetching from The Guardian...";
            "Error fetching from The Guardian: unreachable";
            "Fetching from New York Times...";
            "Error fetching from New York Times: unreachable";
            "Fetching from Dawn (Pakistan)...";
            "  ✓ Found: India wins cricket World Cup..." ];
        posted := [] |}).
Proof. vm_compute. reflexivity. Qed.

End BotFacts.

(* ------------------------------------------------------------------------- *)
(** * Facts about the code over any alphabet *)
(* ------------------------------------------------------------------------- *)

Module GeneralFacts.
Import Text Re Py Bot Spec TextFacts BotFacts General Domain.

(** ** The search of a word over any alphabet *)

Section AlphabetFacts.

Variable char : Type.
Variable is_word : char -> bool.
Variable same_letter : ascii -> char -> bool.

Lemma last_of_cons (c : char) w : last_of (c :: w) = last_or_in (Some c) w.
Proof.
  unfold last_or_in. revert c. induction w as [|a w IH]; intros c; [reflexivity|].
  change (last_of (c :: a :: w)) with (last_of (a :: w)).
  rewrite IH. destruct (last_of w); reflexivity.
Qed.

Lemma last_or_in_cons prev (c : char) w :
  last_or_in prev (c :: w) = last_or_in (Some c) w.
Proof.
  unfold last_or_in at 1. rewrite last_of_cons. unfold last_or_in.
  destruct (last_of w); reflexivity.
Qed.

Lemma last_or_in_None (s : list char) : last_or_in None s = last_of s.
Proof. unfold last_or_in. destruct (last_of s); reflexivity. Qed.

Lemma match_literals_in kw : forall p prev s,
  match_here_in is_word same_letter (literals kw ++ p)%list prev s = true
  <-> exists w rest,
        s = (w ++ rest)%list /\ spells same_letter kw w
        /\ match_here_in is_word same_letter p (last_or_in prev w) rest = true.
Proof.
  induction kw as [|a kw IH]; intros p prev s; cbn [literals app match_here_in].
  - split.
    + intros H. exists [], s. repeat split. exact H.
    + intros (w & rest & -> & Hw & H). destruct w; [exact H | destruct Hw].
  - destruct s as [|c r].
    + split; [discriminate|].
      intros (w & rest & Hs & Hw & _). destruct w; [destruct Hw | discriminate].
    + rewrite andb_true_iff, IH. split.
      * intros (Hc & w & rest & -> & Hw & H).
        exists (c :: w), rest. rewrite last_or_in_cons. cbn [spells]. auto.
      * intros (w & rest & Hs & Hw & H). destruct w as [|c' w]; [destruct Hw|].
        cbn [app] in Hs. injection Hs as <- ->. destruct Hw as (Hc & Hw).
        rewrite last_or_in_cons in H. split; [exact Hc|]. exists w, rest. auto.
Qed.

Lemma search_from_in_spec p : forall s prev,
  search_from_in is_word same_letter p prev s = true
  <-> exists pre post,
        s = (pre ++ post)%list
        /\ match_here_in is_word same_letter p (last_or_in prev pre) post = true.
Proof.
  induction s as [|c r IH]; intros prev; cbn [search_from_in].
  - rewrite orb_false_r. split.
    + intros H. exists [], []. auto.
    + intros (pre & post & Hs & H). symmetry in Hs.
      apply app_eq_nil in Hs as (-> & ->). exact H.
  - rewrite orb_true_iff, IH. split.
    + intros [H | (pre & post & -> & H)].
      * exists [], (c :: r). auto.
      * exists (c :: pre), post. rewrite last_or_in_cons. auto.
    + intros (pre & post & Hs & H). destruct pre as [|c' pre].
      * left. cbn [app] in Hs. subst post. exact H.
      * right. cbn [app] in Hs. injection Hs as <- ->.
        rewrite last_or_in_cons in H. exists pre, post. auto.
Qed.

(** A word whose first and last letters can only be read by word
    characters is found exactly where it stands as a whole word. *)
Lemma search_word_in kw :
  (forall w, spells same_letter kw w ->
             word_at_in is_word (first_of w) = true
             /\ word_at_in is_word (last_of w) = true) ->
  forall s,
    search_in is_word same_letter (word_pattern kw) s = true
    <-> whole_word_among is_word same_letter kw s.
Proof.
  intros Hends s. unfold search_in, whole_word_among, word_pattern.
  rewrite search_from_in_spec. split.
  - intros (pre & post0 & -> & H). rewrite last_or_in_None in H.
    cbn [match_here_in] in H. apply andb_true_iff in H as (Hb & H).
    apply match_literals_in in H as (w & rest & -> & Hw & H).
    destruct (Hends w Hw) as (Hf & Hl).
    assert (Hfw : first_of (w ++ rest)%list = first_of w)
      by (destruct w; [discriminate Hf | reflexivity]).
    rewrite Hfw, Hf in Hb.
    cbn [match_here_in] in H. rewrite andb_true_r in H.
    assert (Hlw : last_or_in (last_of pre) w = last_of w)
      by (unfold last_or_in; destruct (last_of w); [reflexivity | discriminate Hl]).
    rewrite Hlw, Hl in H.
    exists pre, w, rest. repeat split; trivial.
    + destruct (word_at_in is_word (last_of pre)); [discriminate | reflexivity].
    + destruct (word_at_in is_word (first_of rest)); [discriminate | reflexivity].
  - intros (pre & w & post & -> & Hw & Hp & Hr).
    exists pre, (w ++ post)%list. split; [reflexivity|].
    rewrite last_or_in_None. destruct (Hends w Hw) as (Hf & Hl).
    cbn [match_here_in]. apply andb_true_iff. split.
    + assert (Hfw : first_of (w ++ post)%list = first_of w)
        by (destruct w; [discriminate Hf | reflexivity]).
      now rewrite Hfw, Hf, Hp.
    + apply match_literals_in. exists w, post. repeat split; trivial.
      cbn [match_here_in]. rewrite andb_true_r.
      assert (Hlw : last_or_in (last_of pre) w = last_of w)
        by (unfold last_or_in; destruct (last_of w); [reflexivity | discriminate Hl]).
      now rewrite Hlw, Hl, Hr.
Qed.

(** The letters of "India": what reads [I] and what reads [a] are word
    characters. *)
Lemma india_ends :
  (forall c, same_letter "I" c = true -> is_word c = true) ->
  (forall c, same_letter "a" c = true -> is_word c = true) ->
  forall w, spells same_letter "India" w ->
            word_at_in is_word (first_of w) = true
            /\ word_at_in is_word (last_of w) = true.
Proof.
  intros HI Ha w Hw.
  destruct w as [|c1 [|c2 [|c3 [|c4 [|c5 [|c6 w]]]]]]; cbn [spells] in Hw;
    try tauto.
  destruct Hw as (H1 & _ & _ & _ & H5 & _). cbn. auto.
Qed.

End AlphabetFacts.

(** ** The ASCII alphabet *)

Lemma first_char_of s :
  first_of (list_ascii_of_string s) = first_char s.
Proof. destruct s; reflexivity. Qed.

Lemma match_here_ascii p : forall prev s,
  match_here_in is_word ascii_letter p prev (list_ascii_of_string s)
  = match_here IGNORECASE p prev s.
Proof.
  induction p as [|[|a] p IH]; intros prev s; cbn [match_here_in match_here];
    [reflexivity| |].
  - now rewrite IH, first_char_of.
  - destruct s as [|c r]; [reflexivity|]. cbn [list_ascii_of_string].
    now rewrite IH.
Qed.

Lemma search_ascii p s :
  search_in is_word ascii_letter p (list_ascii_of_string s)
  = search p s IGNORECASE.
Proof.
  unfold search_in, search. generalize (@None ascii).
  induction s as [|c r IH]; intros prev;
    cbn [list_ascii_of_string search_from_in search_from].
  - now rewrite <- (match_here_ascii p prev EmptyString).
  - now rewrite <- (match_here_ascii p prev (String c r)), IH.
Qed.

(** ** [fetch_articles] with any test and any slice *)

Section LibraryFacts.

Variable test : string -> bool.
Variable slice : nat -> string -> string.

Lemma fetch_entries_with_spec src es : forall acc w,
  exists out,
    for_each es acc (fetch_entry_with test slice src) w
    = (Returns (acc ++ matching_with test slice src es)%list, printed w out).
Proof.
  unfold matching_with. induction es as [|e es IH]; intros acc w; cbn [for_each].
  - exists []. simpl. now rewrite app_nil_r, printed_nil.
  - unfold bind at 1. unfold fetch_entry_with at 1.
    cbn [filter map]. destruct (test (get (entry_title e) EmptyString)).
    + unfold bind at 1. rewrite print_printed. unfold ret at 1.
      match goal with
      | |- context [for_each es ?acc' _ ?w'] => destruct (IH acc' w') as (out & ->)
      end.
      eexists. rewrite printed_app, <- app_assoc. reflexivity.
    + unfold ret at 1. destruct (IH acc w) as (out & ->). exists out. reflexivity.
Qed.

Variable E : env.

Lemma fetch_source_with_spec acc src w :
  exists out,
    fetch_source_with test slice E acc src w
    = (Returns (acc ++ matching_all_with test slice E [src])%list, printed w out).
Proof.
  destruct src as (name, url). unfold matching_all_with, fetch_source_with, try_except.
  cbn [flat_map fst snd]. rewrite app_nil_r.
  unfold bind at 1. rewrite print_printed. unfold bind at 1, lift.
  destruct (feedparser_parse E url) as [es | e].
  - match goal with
    | |- context [for_each es acc _ ?w'] =>
        destruct (fetch_entries_with_spec name es acc w') as (out & ->)
    end.
    rewrite printed_app. eexists. reflexivity.
  - unfold bind. rewrite print_printed, printed_app. unfold ret.
    rewrite app_nil_r. eexists. reflexivity.
Qed.

Lemma matching_all_with_cons src srcs :
  matching_all_with test slice E (src :: srcs)
  = (matching_all_with test slice E [src] ++ matching_all_with test slice E srcs)%list.
Proof. unfold matching_all_with. cbn [flat_map]. now rewrite app_nil_r. Qed.

Lemma fetch_sources_with_spec srcs : forall acc w,
  exists out,
    for_each srcs acc (fetch_source_with test slice E) w
    = (Returns (acc ++ matching_all_with test slice E srcs)%list, printed w out).
Proof.
  induction srcs as [|src srcs IH]; intros acc w; cbn [for_each].
  - exists []. unfold ret. cbn [matching_all_with flat_map].
    now rewrite app_nil_r, printed_nil.
  - unfold bind. destruct (fetch_source_with_spec acc src w) as (o1 & ->).
    destruct (IH (acc ++ matching_all_with test slice E [src])%list (printed w o1))
      as (o2 & ->).
    exists (o1 ++ o2)%list.
    now rewrite printed_app, <- app_assoc, <- matching_all_with_cons.
Qed.

Lemma fetch_articles_with_spec self w :
  exists out,
    fetch_articles_with test slice E self w
    = (Returns (matching_all_with test slice E (news_sources self)), printed w out).
Proof. apply (fetch_sources_with_spec (news_sources self) [] w). Qed.

Lemma in_matching_with src entries a :
  In a (matching_with test slice src entries)
  <-> exists e, In e entries /\ test (get (entry_title e) EmptyString) = true
                /\ a = article_of_with slice src e.
Proof.
  unfold matching_with. rewrite in_map_iff. split.
  - intros (e & <- & Hin). apply filter_In in Hin. exists e. tauto.
  - intros (e & Hin & Hm & ->). exists e. split; [reflexivity|].
    apply filter_In. tauto.
Qed.

End LibraryFacts.

(** ** The embedding of [Bot] is the one over the ASCII alphabet *)

Lemma mentions_india_ascii e :
  mentions_india e = ascii_test (get (entry_title e) EmptyString).
Proof. unfold mentions_india, ascii_test, india_test. now rewrite search_ascii. Qed.

Lemma matching_ascii src entries :
  matching_with ascii_test slice_to src entries = matching src entries.
Proof.
  unfold matching_with, matching. f_equal.
  apply filter_ext. intros e. now rewrite mentions_india_ascii.
Qed.

Lemma matching_all_ascii E sources :
  matching_all_with ascii_test slice_to E sources = matching_all E sources.
Proof.
  unfold matching_all_with, matching_all.
  induction sources as [|src rest IH]; [reflexivity|]. cbn [flat_map].
  rewrite IH. destruct (feedparser_parse E (snd src)); [|reflexivity].
  now rewrite matching_ascii.
Qed.

End GeneralFacts.

(* ------------------------------------------------------------------------- *)
(** * The properties of the specification *)
(* ------------------------------------------------------------------------- *)

Import Text Re Py Bot Spec Scenario TextFacts BotFacts.
Import General Domain GeneralFacts.



(** C2.  The Matcher includes a raw entry if and only if its title (the empty
    string when the entry has none) contains "India" as a whole word, whatever
    the case of its letters.  This is proved over any alphabet: whatever the
    characters of a title are, whichever of them [\w] holds of and whichever
    of them the flags let a letter of the pattern read, as long as what reads
    [I] and what reads [a] are word characters (as in Python), the test of
    line 29 holds exactly of the titles in which a word that spells "India"
    stands with no word character before it and none after it;
    [fetch_articles] returns the articles of the entries that pass the test,
    and only the title enters the test.  The embedding of [Bot] is the
    instance at the ASCII alphabet, and on an ASCII title the test is
    [whole_word_in].  The other keys of the entry (its summary among them)
    play no part, and "Indiana hosts conference" does not pass even with
    "India" for a summary. *)
Theorem C2_matcher_whole_word_in_title :
  (forall (char : Type) (characters : string -> list char)
          (is_word : char -> bool) (same_letter : ascii -> char -> bool)
          (slice : nat -> string -> string),
      (forall c, same_letter "I"%char c = true -> is_word c = true) ->
      (forall c, same_letter "a"%char c = true -> is_word c = true) ->
      let test := india_test characters is_word same_letter in
      (forall e,
          test (get (entry_title e) EmptyString) = true
          <-> whole_word_among is_word same_letter "India"
                (characters (get (entry_title e) EmptyString)))
      /\ (forall E self w,
            fst (fetch_articles_with test slice E self w)
            = Returns (matching_all_with test slice E (news_sources self)))
      /\ (forall src entries a,
            In a (matching_with test slice src entries)
            <-> exists e, In e entries
                          /\ test (get (entry_title e) EmptyString) = true
                          /\ a = article_of_with slice src e))
  /\ (forall e, mentions_india e = ascii_test (get (entry_title e) EmptyString))
  /\ (forall E self w,
        fst (fetch_articles E self w)
        = fst (fetch_articles_with ascii_test slice_to E self w))
  /\ (forall e,
        is_ascii (get (entry_title e) EmptyString) = true ->
        (mentions_india e = true
         <-> whole_word_in "India" (get (entry_title e) EmptyString)))
  /\ (forall t l p s l' p' s',
        mentions_india
          {| entry_title := t; entry_link := l; entry_published := p;
             entry_summary := s |}
        = mentions_india
            {| entry_title := t; entry_link := l'; entry_published := p';
               entry_summary := s' |})
  /\ mentions_india indiana_entry = false
  /\ ~ whole_word_in "India" "Indiana hosts conference".
Proof.
  split.
  { intros char characters is_word same_letter slice HI Ha test. split.
    - intros e. unfold test, india_test, india_pattern.
      apply search_word_in. now apply india_ends.
    - split.
      + intros E self w.
        destruct (fetch_articles_with_spec test slice E self w) as (out & ->).
        reflexivity.
      + apply in_matching_with. }
  split; [exact mentions_india_ascii|].
  split.
  { intros E self w.
    destruct (fetch_articles_spec E self w) as (o1 & ->).
    destruct (fetch_articles_with_spec ascii_test slice_to E self w) as (o2 & ->).
    cbn [fst]. now rewrite matching_all_ascii. }
  assert (Hiff : forall e, mentions_india e = true
                           <-> whole_word_in "India" (get (entry_title e) EmptyString)).
  { intros e. unfold mentions_india, india_pattern.
    apply search_word_pattern; reflexivity. }
  split; [intros e _; apply Hiff|].
  split; [reflexivity|]. split; [reflexivity|].
  intros H. apply (Hiff indiana_entry) in H. discriminate H.
Qed.

(** C2 over the ASCII alphabet, at the title "India wins cricket World
    Cup": the test holds, a word that spells "India" stands alone in the
    title, and the title contains "India" as a whole word. *)
Lemma C2_matcher_whole_word_in_title_witness :
  (ascii_test "India wins cricket World Cup" = true
   <-> whole_word_among is_word ascii_letter "India"
         (list_ascii_of_string "India wins cricket World Cup"))
  /\ (mentions_india cup_entry = true
      <-> whole_word_in "India" "India wins cricket World Cup").
Proof.
  assert (HI : forall c, ascii_letter "I" c = true -> is_word c = true).
  { intros c H. unfold ascii_letter in H. apply Ascii.eqb_eq in H.
    now rewrite (is_word_same_lower "I" c H). }
  assert (Ha : forall c, ascii_letter "a" c = true -> is_word c = true).
  { intros c H. unfold ascii_letter in H. apply Ascii.eqb_eq in H.
    now rewrite (is_word_same_lower "a" c H). }
  split.
  - exact (proj1 (proj1 C2_matcher_whole_word_in_title ascii
                    list_ascii_of_string is_word ascii_letter slice_to HI Ha)
             cup_entry).
  - exact (proj1 (proj2 (proj2 (proj2 C2_matcher_whole_word_in_title)))
             cup_entry eq_refl).
Defined.



(** C4.  For every Article the sentiment of the fallback is "positive" when
    more words of the positive list than of the negative list occur in the
    lowercase title and summary (joined by one space), "negative" when more
    of the negative list do, "neutral" otherwise; a count is the number of the
    words of the list that occur in the text.  This holds whatever the table
    of [str.lower()] is, that of Python included; [fallback_analysis] of
    [Bot] is the instance at the ASCII table.  The Verdict is a function of
    the title and the summary alone: neither the other keys of the article
    nor the environment enter it. *)
Theorem C4_fallback_sentiment_by_counts :
  (forall (str_lower : string -> string) a,
      let text := str_lower (title a) ++ " " ++ str_lower (summary a) in
      let pos := occurring positive_words text in
      let neg := occurring negative_words text in
      field "sentiment" (fallback_analysis_with str_lower a)
      = Some (if neg <? pos then "positive"
              else if pos <? neg then "negative"
              else "neutral"))
  /\ (forall (str_lower : string -> string) s t l p m s' l' p',
        fallback_analysis_with str_lower
          {| source := s; title := t; link := l; published := p; summary := m |}
        = fallback_analysis_with str_lower
            {| source := s'; title := t; link := l'; published := p';
               summary := m |})
  /\ (forall a, fallback_analysis a = fallback_analysis_with lower a).
Proof.
  split; [|split; reflexivity].
  intros str_lower a text pos neg. subst text pos neg.
  rewrite <- !count_in_occurring. reflexivity.
Qed.

(** C5.  For every Article the category of the fallback is the first, in the
    order Politics, Economy, Sports, Technology, Defense, whose keyword list
    has a word that occurs in the lowercase title and summary, and "Other"
    when no list has one.  This holds whatever the table of [str.lower()]
    is, that of Python included; [fallback_analysis] of [Bot] is the
    instance at the ASCII table. *)
Theorem C5_fallback_category_by_priority :
  map fst category_priority
  = ["Politics"; "Economy"; "Sports"; "Technology"; "Defense"]
  /\ (forall (str_lower : string -> string) a,
        field "category" (fallback_analysis_with str_lower a)
        = Some (first_category category_priority
                  (str_lower (title a) ++ " " ++ str_lower (summary a))))
  /\ (forall table text,
        (exists before c words after,
            table = (before ++ (c, words) :: after)%list
            /\ Forall (fun cw => none_in (snd cw) text) before
            /\ (exists w, In w words /\ substring_of w text)
            /\ first_category table text = c)
        \/ (Forall (fun cw => none_in (snd cw) text) table
            /\ first_category table text = "Other"))
  /\ (forall a, fallback_analysis a = fallback_analysis_with lower a).
Proof.
  split; [reflexivity|]. split; [|split; [exact first_category_cases | reflexivity]].
  intros str_lower a. rewrite <- category_first. reflexivity.
Qed.

(** C6.  For every list of analyzed items (each analysis a dict with a string
    for sentiment, a string for category and, if any, a string for
    reasoning), [format_discord_message] returns a payload.  On the empty
    list its blocks are exactly one block, which carries the fixed empty-state
    description.  On N >= 1 items its blocks are N+1: the header block, then
    the block of each item, in the order of the input. *)
Theorem C6_renderer_blocks :
  forall E items,
    Forall (fun it => showable (item_analysis it) = true) items ->
    exists payload,
      format_discord_message E items = Returns payload
      /\ match items with
         | [] =>
             embeds_of payload = [empty_embed E]
             /\ description_of (empty_embed E) = Some empty_description
         | _ :: _ =>
             exists blocks,
               embeds_of payload
               = header_embed E (List.length items) :: blocks
               /\ Forall2 (fun it b => article_embed it = Returns b) items blocks
               /\ List.length (embeds_of payload) = S (List.length items)
         end.
Proof.
  intros E [|it items] Hall.
  - eexists. split; [reflexivity|]. split; reflexivity.
  - destruct (format_nonempty E it items Hall) as (payload & blocks & Hf & He & Hb).
    exists payload. split; [exact Hf|]. exists blocks.
    split; [exact He|]. split; [exact Hb|].
    rewrite He. cbn [List.length]. f_equal. symmetry.
    apply (Forall2_length Hb).
Qed.

(** C6 at two items, one classified by the fallback and one by a reply
    outside the enumerations: three blocks. *)
Lemma C6_renderer_blocks_witness :
  Forall (fun it => showable (item_analysis it) = true)
    [cup_item; {| item_article := cup_article; item_analysis := mixed_verdict |}]
  /\ exists payload,
       format_discord_message (answering timed_out [])
         [cup_item; {| item_article := cup_article; item_analysis := mixed_verdict |}]
       = Returns payload
       /\ exists blocks,
            embeds_of payload = header_embed (answering timed_out []) 2 :: blocks
            /\ Forall2 (fun it b => article_embed it = Returns b)
                 [cup_item;
                  {| item_article := cup_article; item_analysis := mixed_verdict |}]
                 blocks
            /\ List.length (embeds_of payload) = 3.
Proof.
  assert (H : Forall (fun it => showable (item_analysis it) = true)
                [cup_item;
                 {| item_article := cup_article; item_analysis := mixed_verdict |}])
    by (repeat constructor).
  split; [exact H|].
  exact (C6_renderer_blocks (answering timed_out []) _ H).
Defined.

(** C7.  [send_to_discord] makes exactly one call, prints exactly one line
    and returns without raising.  It returns [True] if and only if the call
    returned with status 204; for any other status and for a transport error
    the line printed reports the failure and the value returned is [False]. *)
Theorem C7_publisher_accepts_204_only :
  forall E self payload w,
    let o := requests_post E (posted w) (webhook_request self payload) in
    send_to_discord E self payload w
    = (Returns (accepted o),
       {| stdout := (stdout w ++ [publish_line o])%list;
          posted := (posted w ++ [webhook_request self payload])%list |})
    /\ (accepted o = true <-> exists r, o = Returns r /\ status_code r = 204%Z)
    /\ (forall r,
          o = Returns r -> status_code r <> 204%Z ->
          publish_line o
          = "Discord webhook error: " ++ str_of_int (status_code r)
            ++ " - " ++ text r)
    /\ (forall e,
          o = Raises e ->
          publish_line o = "Error sending to Discord: " ++ exn_msg e).
Proof.
  intros E self payload w o. split; [apply send_to_discord_spec|].
  subst o. destruct (requests_post E (posted w) (webhook_request self payload))
    as [r | e]; cbn [accepted publish_line].
  - split.
    + rewrite Z.eqb_eq. split.
      * intros H. exists r. auto.
      * intros (r' & Hr & Hs). now injection Hr as ->.
    + split; [|discriminate].
      intros r' Hr Hs. injection Hr as <-. apply Z.eqb_neq in Hs. now rewrite Hs.
  - split.
    + split; [discriminate|]. intros (r & Hr & _). discriminate Hr.
    + split; [discriminate|]. intros e' He. now injection He as ->.
Qed.

(** C7 at a webhook that answers 404: one call, one line, [False]. *)
Lemma C7_publisher_accepts_204_only_witness :
  send_to_discord
    (answering (Returns {| status_code := 404; text := "Unknown Webhook" |}) [])
    the_bot VNone world0
  = (Returns false,
     {| stdout := ["Discord webhook error: 404 - Unknown Webhook"];
        posted := [webhook_request the_bot VNone] |}).
Proof.
  pose proof (C7_publisher_accepts_204_only
                (answering (Returns {| status_code := 404;
                                       text := "Unknown Webhook" |}) [])
                the_bot VNone world0) as H.
  cbv zeta in H. destruct H as (H & _). exact H.
Defined.

(** C8.  The entry titled "India wins cricket World Cup" with the summary
    "stadium celebrates historic win" passes the Matcher, and the fallback on
    its Article returns the sentiment "positive" (two positive words, no
    negative one) and the category "Sports". *)
Theorem C8_world_cup_scenario :
  forall l p src,
    let e := {| entry_title := Some "India wins cricket World Cup";
                entry_link := l;
                entry_published := p;
                entry_summary := Some "stadium celebrates historic win" |} in
    mentions_india e = true
    /\ matching src [e] = [article_of src e]
    /\ fallback_analysis (article_of src e)
       = VDict [ ("sentiment", VStr "positive");
                 ("category", VStr "Sports");
                 ("reasoning", VStr "Keyword-based analysis") ]
    /\ count_in positive_words (text_of (article_of src e)) = 2
    /\ count_in negative_words (text_of (article_of src e)) = 0.
Proof.
  intros l p src e. subst e. repeat split; reflexivity.
Qed.

(** C9.  The keyword tests of the fallback are substring tests, and a listed
    word adds at most 1 to its count however often it occurs: a count is the
    number of listed words that occur.  "win" is in "India unwinding" only
    inside a longer word and still makes the sentiment positive; "ai" is in
    "India said" only inside a longer word and still makes the category
    Technology; without those words the title "India" is neutral and Other. *)
Theorem C9_keywords_match_as_substrings :
  (forall w text, contains w text = true <-> substring_of w text)
  /\ (forall words text,
        count_in words text = occurring words text
        /\ count_in words text <= List.length words)
  /\ count_in positive_words "win win win" = 1
  /\ (text_of (article_titled "India unwinding") = "india unwinding "
      /\ search (word_pattern "win") "india unwinding " NOFLAG = false
      /\ count_in positive_words "india unwinding " = 1
      /\ field "sentiment" (fallback_analysis (article_titled "India unwinding"))
         = Some "positive")
  /\ (text_of (article_titled "India said") = "india said "
      /\ search (word_pattern "ai") "india said " NOFLAG = false
      /\ field "category" (fallback_analysis (article_titled "India said"))
         = Some "Technology")
  /\ fallback_analysis (article_titled "India")
     = VDict [ ("sentiment", VStr "neutral");
               ("category", VStr "Other");
               ("reasoning", VStr "Keyword-based analysis") ].
Proof.
  split; [exact contains_spec|]. split.
  { intros words text. rewrite count_in_occurring.
    split; [reflexivity | apply occurring_le]. }
  repeat split; reflexivity.
Qed.

(** C10.  For every Article the category of the fallback is one of Politics,
    Economy, Sports, Technology, Defense, Other, and never Diplomacy; each of
    the six is the category of some Article; the six are a strict subset of
    the enumeration of the specification, which has Diplomacy as well. *)
Theorem C10_fallback_never_diplomacy :
  (forall a,
      exists c,
        field "category" (fallback_analysis a) = Some c
        /\ In c fallback_categories
        /\ c <> "Diplomacy")
  /\ Forall (fun c => exists a, field "category" (fallback_analysis a) = Some c)
       fallback_categories
  /\ incl fallback_categories categories
  /\ In "Diplomacy" categories
  /\ ~ In "Diplomacy" fallback_categories.
Proof.
  split.
  { intros a. exists (category_of_text (text_of a)).
    split; [reflexivity|].
    pose proof (category_in_fallback_categories (text_of a)) as H.
    apply mem_In in H. split; [exact H|].
    intros Heq. rewrite Heq in H. cbn in H.
    repeat (destruct H as [H | H]; [discriminate H|]). exact H. }
  split.
  { repeat constructor.
    - exists (article_titled "India election"). reflexivity.
    - exists (article_titled "India trade"). reflexivity.
    - exists (article_titled "India cricket"). reflexivity.
    - exists (article_titled "India startup"). reflexivity.
    - exists (article_titled "India army"). reflexivity.
    - exists (article_titled "India"). reflexivity. }
  split.
  { intros c H. cbn in H |- *. intuition. }
  split; [cbn; intuition|].
  cbn. intros H. repeat (destruct H as [H | H]; [discriminate H|]). exact H.
Qed.

(* ------------------------------------------------------------------------- *)
(** * More facts: slices, fences, replies, blocks and runs *)
(* ------------------------------------------------------------------------- *)

Module ExtraFacts.
Import Orchestrator Behaviour.

(** ** Slices *)

Lemma slice_to_length n : forall s, String.length (slice_to n s) <= n.
Proof.
  unfold slice_to. induction n as [|n IH]; intros [|c s]; simpl; try lia.
  specialize (IH s). lia.
Qed.

Lemma slice_to_prefix n : forall s, exists rest, s = slice_to n s ++ rest.
Proof.
  unfold slice_to. induction n as [|n IH]; intros [|c s]; simpl.
  - exists EmptyString. reflexivity.
  - exists (String c s). reflexivity.
  - exists EmptyString. reflexivity.
  - destruct (IH s) as (rest & H). exists rest. now rewrite <- H.
Qed.

Lemma slice_to_short n : forall s, String.length s <= n -> slice_to n s = s.
Proof.
  unfold slice_to. induction n as [|n IH]; intros [|c s] H; simpl in *;
    try reflexivity; try lia.
  f_equal. apply IH. lia.
Qed.

(** ** Case *)

Lemma lower_char_idempotent c : lower_char (lower_char c) = lower_char c.
Proof. destruct c as [[] [] [] [] [] [] [] []]; reflexivity. Qed.

Lemma match_here_lower p : forall prev s,
  match_here IGNORECASE p (option_map lower_char prev) (lower s)
  = match_here IGNORECASE p prev s.
Proof.
  induction p as [|[|a] p IH]; intros prev s; cbn [match_here]; [reflexivity| |].
  - rewrite IH, first_char_lower, !word_at_lower. reflexivity.
  - destruct s as [|c r]; [reflexivity|]. cbn [lower].
    change (Some (lower_char c)) with (option_map lower_char (Some c)).
    rewrite IH. unfold char_match. cbn [ignorecase IGNORECASE].
    now rewrite lower_char_idempotent.
Qed.

Lemma search_from_lower p : forall s prev,
  search_from IGNORECASE p (option_map lower_char prev) (lower s)
  = search_from IGNORECASE p prev s.
Proof.
  induction s as [|c r IH]; intros prev.
  - cbn [search_from lower].
    now rewrite <- (match_here_lower p prev EmptyString).
  - cbn [search_from lower].
    rewrite <- (match_here_lower p prev (String c r)). cbn [lower].
    f_equal. apply (IH (Some c)).
Qed.

(** ** Concatenation *)

Lemma append_assoc a b c : (a ++ b) ++ c = a ++ b ++ c.
Proof. induction a as [|x a IH]; cbn [append]; [reflexivity | now f_equal]. Qed.

Lemma append_length a b : String.length (a ++ b) = String.length a + String.length b.
Proof. induction a as [|x a IH]; simpl; [reflexivity | now rewrite IH]. Qed.

(** ** Whitespace *)

Lemma rstrip_all_space s : all_space s = true -> rstrip s = EmptyString.
Proof.
  induction s as [|c r IH]; [reflexivity|]. cbn [all_space rstrip].
  intros H. apply andb_true_iff in H as (Hc & Hr). now rewrite (IH Hr), Hc.
Qed.

Lemma rstrip_not_all_space s : all_space s = false -> rstrip s <> EmptyString.
Proof.
  induction s as [|c r IH]; [discriminate|]. cbn [all_space rstrip]. intros H.
  destruct (rstrip r) eqn:Hr; [|discriminate].
  destruct (is_space c); [|discriminate].
  cbn [andb] in H. exfalso. now apply IH.
Qed.

Lemma rstrip_cons c r :
  rstrip r <> EmptyString \/ is_space c = false ->
  rstrip (String c r) = String c (rstrip r).
Proof.
  cbn [rstrip]. intros [H | H].
  - destruct (rstrip r); [congruence | reflexivity].
  - rewrite H. destruct (rstrip r); reflexivity.
Qed.

Lemma rstrip_idempotent s : rstrip (rstrip s) = rstrip s.
Proof.
  induction s as [|c r IH]; [reflexivity|]. cbn [rstrip].
  destruct (rstrip r) as [|d r'] eqn:Hr.
  - destruct (is_space c) eqn:Hc; [reflexivity|]. cbn [rstrip]. now rewrite Hc.
  - rewrite rstrip_cons; [now rewrite IH|]. left. rewrite IH. discriminate.
Qed.

Lemma lstrip_starts s :
  lstrip s = EmptyString
  \/ exists c r, lstrip s = String c r /\ is_space c = false.
Proof.
  induction s as [|c r IH]; [now left|]. cbn [lstrip].
  destruct (is_space c) eqn:Hc; [exact IH|]. right. now exists c, r.
Qed.

Lemma strip_idempotent s : strip (strip s) = strip s.
Proof.
  unfold strip. destruct (lstrip_starts s) as [-> | (c & r & -> & Hc)];
    [reflexivity|].
  rewrite rstrip_cons by now right. cbn [lstrip]. rewrite Hc.
  rewrite rstrip_cons.
  - now rewrite rstrip_idempotent.
  - now right.
Qed.

Lemma lstrip_all_space s : all_space s = true -> lstrip s = EmptyString.
Proof.
  induction s as [|c r IH]; [reflexivity|]. cbn [all_space lstrip].
  intros H. apply andb_true_iff in H as (-> & Hr). now apply IH.
Qed.

Lemma drop_space_run s : drop (space_run s) s = lstrip s.
Proof.
  induction s as [|c r IH]; [reflexivity|]. cbn [space_run lstrip].
  destruct (is_space c); [exact IH | reflexivity].
Qed.

Lemma lstrip_app_all_space ws s : all_space ws = true -> lstrip (ws ++ s) = lstrip s.
Proof.
  induction ws as [|c r IH]; [reflexivity|]. cbn [all_space]. intros H.
  apply andb_true_iff in H as (Hc & Hr). simpl. rewrite Hc. now apply IH.
Qed.

Lemma lstrip_app s x :
  all_space s = false -> lstrip (s ++ x) = lstrip s ++ x.
Proof.
  induction s as [|c r IH]; [discriminate|]. cbn [all_space]. intros H. simpl.
  destruct (is_space c); [now apply IH | reflexivity].
Qed.

Lemma no_backquote_lstrip s : no_backquote s = true -> no_backquote (lstrip s) = true.
Proof.
  induction s as [|c r IH]; [reflexivity|]. intros H. cbn [lstrip].
  destruct (is_space c); [|exact H].
  cbn [no_backquote] in H. apply andb_true_iff in H as (_ & Hr). now apply IH.
Qed.

(** ** The fences *)

Lemma prefix_other_char w c d s :
  Ascii.eqb c d = false -> prefix (String c w) (String d s) = false.
Proof.
  intros H. simpl. destruct (ascii_dec c d) as [-> | _]; [|reflexivity].
  now rewrite Ascii.eqb_refl in H.
Qed.

Lemma space_not_backquote c : is_space c = true -> Ascii.eqb "`" c = false.
Proof. destruct c as [[] [] [] [] [] [] [] []]; intros H; try reflexivity; discriminate H. Qed.

Lemma fence_match_other_char c s :
  Ascii.eqb c "`" = false -> is_space c = false ->
  fence_match (String c s) = None.
Proof.
  intros Hq Hs. unfold fence_match, fence_json, fence.
  rewrite Ascii.eqb_sym in Hq.
  rewrite (prefix_other_char _ _ _ _ Hq). cbn [space_run]. rewrite Hs.
  cbn [drop]. now rewrite (prefix_other_char _ _ _ _ Hq).
Qed.

Lemma sub_fences_from_drop n : forall s,
  sub_fences_from n s = sub_fences_from 0 (drop n s).
Proof.
  induction n as [|n IH]; intros s; [reflexivity|].
  destruct s as [|c r]; [reflexivity|]. cbn [sub_fences_from drop]. apply IH.
Qed.

Lemma sub_fences_match c r n :
  fence_match (String c r) = Some (S n) ->
  sub_fences_from 0 (String c r) = sub_fences_from 0 (drop (S n) (String c r)).
Proof.
  intros H. cbn [sub_fences_from]. rewrite H. cbn [pred drop].
  apply sub_fences_from_drop.
Qed.

Lemma sub_fences_none c r :
  fence_match (String c r) = None ->
  sub_fences_from 0 (String c r) = String c (sub_fences_from 0 r).
Proof. intros H. cbn [sub_fences_from]. now rewrite H. Qed.

Lemma space_before_fence ws :
  all_space ws = true ->
  fence_match (ws ++ fence) = Some (String.length ws + 3)
  /\ drop (String.length ws + 3) (ws ++ fence) = EmptyString.
Proof.
  unfold fence_match. intros H.
  assert (Hj : prefix fence_json (ws ++ fence) = false).
  { destruct ws as [|c r]; [reflexivity|]. cbn [all_space] in H.
    apply andb_true_iff in H as (Hc & _).
    apply prefix_other_char. now apply space_not_backquote. }
  rewrite Hj. clear Hj.
  assert (Hk : space_run (ws ++ fence) = String.length ws
               /\ drop (String.length ws) (ws ++ fence) = fence).
  { induction ws as [|c r IH]; [now split|]. cbn [all_space] in H.
    apply andb_true_iff in H as (Hc & Hr). destruct (IH Hr) as (IH1 & IH2).
    simpl. rewrite Hc, IH1. now split. }
  destruct Hk as (Hk1 & Hk2). rewrite Hk1, Hk2. split; [reflexivity|].
  clear. induction ws as [|c r IH]; [reflexivity | exact IH].
Qed.

Lemma sub_fences_closing ws :
  all_space ws = true -> sub_fences_from 0 (ws ++ fence) = EmptyString.
Proof.
  intros H. destruct (space_before_fence ws H) as (Hm & Hd).
  destruct (ws ++ fence) as [|c r] eqn:E.
  - reflexivity.
  - rewrite Nat.add_comm in Hm, Hd. cbn [Nat.add] in Hm, Hd.
    rewrite (sub_fences_match _ _ _ Hm), Hd. reflexivity.
Qed.

Lemma all_space_app a b : all_space (a ++ b) = all_space a && all_space b.
Proof.
  induction a as [|c r IH]; [reflexivity|]. simpl. now rewrite IH, andb_assoc.
Qed.

Lemma no_fence_after_word s x :
  all_space s = false -> no_backquote s = true ->
  prefix fence (drop (space_run (s ++ x)) (s ++ x)) = false.
Proof.
  induction s as [|c r IH]; [discriminate|]. cbn [all_space no_backquote].
  intros Ha Hq. apply andb_true_iff in Hq as (Hc & Hr).
  apply negb_true_iff in Hc. simpl.
  destruct (is_space c) eqn:Hs.
  - cbn [drop]. now apply IH.
  - cbn [drop]. rewrite Ascii.eqb_sym in Hc. apply (prefix_other_char _ _ _ _ Hc).
Qed.

(** The text before the closing fence is kept, but for its trailing
    whitespace. *)
Lemma sub_fences_body s ws :
  all_space ws = true -> no_backquote s = true ->
  sub_fences_from 0 (s ++ ws ++ fence) = rstrip s.
Proof.
  intros Hws. induction s as [|c r IH]; intros Hq.
  - now apply sub_fences_closing.
  - cbn [no_backquote] in Hq. apply andb_true_iff in Hq as (Hc & Hr).
    apply negb_true_iff in Hc. specialize (IH Hr).
    change (String c r ++ ws ++ fence) with (String c (r ++ ws ++ fence)).
    destruct (is_space c) eqn:Hs.
    + destruct (all_space r) eqn:Har.
      * rewrite rstrip_all_space by (cbn [all_space]; now rewrite Hs, Har).
        replace (String c (r ++ ws ++ fence))
          with ((String c (r ++ ws)) ++ fence)
          by (cbn [append]; now rewrite append_assoc).
        apply sub_fences_closing. cbn [all_space].
        now rewrite Hs, all_space_app, Har, Hws.
      * rewrite sub_fences_none, IH.
        -- symmetry. apply rstrip_cons. left. now apply rstrip_not_all_space.
        -- unfold fence_match, fence_json.
           rewrite Ascii.eqb_sym in Hc. rewrite (prefix_other_char _ _ _ _ Hc).
           cbn [space_run]. rewrite Hs. cbn [drop].
           now rewrite (no_fence_after_word r (ws ++ fence) Har Hr).
    + rewrite sub_fences_none, IH.
      * symmetry. apply rstrip_cons. now right.
      * now apply fence_match_other_char.
Qed.

Lemma rstrip_keeps_fence s : rstrip (s ++ fence) = s ++ fence.
Proof.
  induction s as [|c r IH]; [reflexivity|].
  change (String c r ++ fence) with (String c (r ++ fence)).
  rewrite rstrip_cons; [now rewrite IH|]. left. rewrite IH.
  destruct r; discriminate.
Qed.

Lemma strip_fenced ws t ws' : strip (fenced ws t ws') = fenced ws t ws'.
Proof.
  unfold strip, fenced.
  replace (lstrip (fence_json ++ ws ++ t ++ ws' ++ fence))
    with (fence_json ++ ws ++ t ++ ws' ++ fence) by reflexivity.
  rewrite <- !append_assoc. apply rstrip_keeps_fence.
Qed.

Lemma sub_fences_fenced ws t ws' :
  all_space ws = true -> all_space ws' = true -> no_backquote t = true ->
  sub_fences (fenced ws t ws') = strip t
  /\ strip (sub_fences (strip (fenced ws t ws'))) = strip t.
Proof.
  intros Hws Hws' Ht.
  assert (H : sub_fences (fenced ws t ws') = strip t).
  { unfold sub_fences, fenced.
    set (Y := ws ++ t ++ ws' ++ fence).
    assert (Hm : fence_match (fence_json ++ Y) = Some (S (6 + space_run Y))).
    { unfold fence_match.
      replace (prefix fence_json (fence_json ++ Y)) with true; [reflexivity|].
      symmetry. apply prefix_spec. now exists Y. }
    change (fence_json ++ Y) with (String "`" ("``json" ++ Y)) in Hm |- *.
    rewrite (sub_fences_match _ _ _ Hm).
    change (drop (S (6 + space_run Y)) (String "`" ("``json" ++ Y)))
      with (drop (space_run Y) Y).
    rewrite drop_space_run. unfold Y.
    rewrite (lstrip_app_all_space ws _ Hws).
    destruct (all_space t) eqn:Hat.
    - rewrite (lstrip_app_all_space t _ Hat), (lstrip_app_all_space ws' _ Hws').
      unfold strip. now rewrite (lstrip_all_space t Hat).
    - rewrite (lstrip_app t _ Hat).
      apply (sub_fences_body (lstrip t) ws' Hws'). now apply no_backquote_lstrip. }
  split; [exact H|]. now rewrite strip_fenced, H, strip_idempotent.
Qed.

Lemma contains_drop w n : forall s,
  contains w (drop n s) = true -> contains w s = true.
Proof.
  induction n as [|n IH]; intros s H; [exact H|].
  destruct s as [|c r]; [exact H|]. cbn [drop] in H. cbn [contains].
  rewrite (IH r H). apply orb_true_r.
Qed.

Lemma prefix_contains w s : prefix w s = true -> contains w s = true.
Proof. intros H. destruct s; cbn [contains]; now rewrite H. Qed.

Lemma no_fence_no_match s : contains fence s = false -> fence_match s = None.
Proof.
  intros H. unfold fence_match.
  destruct (prefix fence_json s) eqn:Hj.
  - apply prefix_spec in Hj as (post & ->).
    assert (Hc : contains fence (fence_json ++ post) = true)
      by (apply prefix_contains, prefix_spec; now exists ("json" ++ post)).
    congruence.
  - destruct (prefix fence (drop (space_run s) s)) eqn:Hf; [|reflexivity].
    apply prefix_contains, contains_drop in Hf. congruence.
Qed.

Lemma sub_fences_no_fence s :
  contains fence s = false -> sub_fences s = s.
Proof.
  unfold sub_fences. induction s as [|c r IH]; intros H; [reflexivity|].
  rewrite (sub_fences_none _ _ (no_fence_no_match _ H)). f_equal. apply IH.
  cbn [contains] in H. now apply orb_false_iff in H as (_ & H).
Qed.



Lemma matching_all_app E s1 s2 :
  matching_all E (s1 ++ s2) = (matching_all E s1 ++ matching_all E s2)%list.
Proof. unfold matching_all. apply flat_map_app. Qed.


(** ** [analyze_with_ai]: the whole effect *)

Lemma analyze_with_ai_spec E a w :
  let o := requests_post E (posted w) (classification_request a) in
  analyze_with_ai E a w
  = (Returns (analysis_for E a o),
     {| stdout := (stdout w ++ analysis_lines E o)%list;
        posted := (posted w ++ [classification_request a])%list |}).
Proof.
  cbv zeta.
  unfold analyze_with_ai, analysis_for, analysis_lines, decoded_reply.
  unfold try_except, bind, post, lift, and_then, print, ret. cbn [stdout posted].
  destruct (requests_post E (posted w) (classification_request a)) as [r | e];
    [|reflexivity].
  destruct (status_code r =? 200)%Z; [|reflexivity].
  repeat match goal with
         | |- context [match ?o with Returns _ => _ | Raises _ => _ end] =>
             destruct o; [|reflexivity]
         end.
  now rewrite app_nil_r.
Qed.


(** ** The shape of a reply *)

Lemma content_extraction data :
  (c <- getitem_str data "content" ;;
   c0 <- getitem_0 c ;;
   t <- getitem_str c0 "text" ;;
   method_strip t)%exc
  = match content_text data with
    | Some t => Returns (strip t)
    | None =>
        (c <- getitem_str data "content" ;;
         c0 <- getitem_0 c ;;
         t <- getitem_str c0 "text" ;;
         method_strip t)%exc
    end
  /\ (content_text data = None ->
      exists e,
        (c <- getitem_str data "content" ;;
         c0 <- getitem_0 c ;;
         t <- getitem_str c0 "text" ;;
         method_strip t)%exc = Raises e).
Proof.
  unfold content_text.
  destruct data as [| | | | | |d];
    try (split; [reflexivity | intros _; eexists; reflexivity]).
  unfold getitem_str at 1 3 5.
  destruct (lookup "content" d) as [c|];
    [|split; [reflexivity | intros _; eexists; reflexivity]].
  cbn [and_then].
  destruct c as [| | | |s|[|b l]|d'];
    try (split; [reflexivity | intros _; eexists; reflexivity]).
  - destruct s; split; try reflexivity; intros _; eexists; reflexivity.
  - cbn [getitem_0 and_then].
    destruct b as [| | | | | |block];
      try (split; [reflexivity | intros _; eexists; reflexivity]).
    unfold getitem_str.
    destruct (lookup "text" block) as [t|];
      [|split; [reflexivity | intros _; eexists; reflexivity]].
    cbn [and_then].
    destruct t; split; try reflexivity; try discriminate;
      intros _; eexists; reflexivity.
Qed.

Lemma decoded_reply_shape E r data :
  json_loads E (text r) = Returns data ->
  match content_text data with
  | Some t => decoded_reply E r = json_loads E (strip (sub_fences (strip t)))
  | None => exists e, decoded_reply E r = Raises e
  end.
Proof.
  intros Hd. unfold decoded_reply. rewrite Hd. cbn [and_then].
  destruct (content_extraction data) as (H1 & H2).
  destruct (content_text data) as [t|].
  - unfold and_then in H1 |- *.
    destruct (getitem_str data "content") as [c|]; [|discriminate].
    destruct (getitem_0 c) as [c0|]; [|discriminate].
    destruct (getitem_str c0 "text") as [t'|]; [|discriminate].
    destruct (method_strip t') as [s|]; [|discriminate].
    now injection H1 as ->.
  - destruct (H2 eq_refl) as (e & He). exists e.
    unfold and_then in He |- *.
    destruct (getitem_str data "content") as [c|]; [|now injection He as ->].
    destruct (getitem_0 c) as [c0|]; [|now injection He as ->].
    destruct (getitem_str c0 "text") as [t'|]; [|now injection He as ->].
    destruct (method_strip t') as [s|]; [discriminate | now injection He as ->].
Qed.

Lemma analysis_of_reply E a w r data :
  requests_post E (posted w) (classification_request a) = Returns r ->
  status_code r = 200%Z ->
  json_loads E (text r) = Returns data ->
  fst (analyze_with_ai E a w)
  = Returns
      match content_text data with
      | Some t =>
          match json_loads E (strip (sub_fences (strip t))) with
          | Returns v => v
          | Raises _ => fallback_analysis a
          end
      | None => fallback_analysis a
      end.
Proof.
  intros Hp Hs Hd. rewrite analyze_with_ai_value, Hp. unfold analysis_for.
  rewrite Hs. change (200 =? 200)%Z with true. cbv iota.
  pose proof (decoded_reply_shape E r data Hd) as H.
  destruct (content_text data) as [t|].
  - now rewrite H.
  - destruct H as (e & ->). reflexivity.
Qed.

(** ** The block of one item *)

Lemma article_embed_renderable it :
  renderable (item_analysis it) = true ->
  exists b, block_of it = Some b /\ article_embed it = Returns b.
Proof.
  unfold renderable, block_of, article_embed.
  destruct (item_analysis it) as [| | | | | |d]; try discriminate.
  unfold getitem_str, method_get, footer_of.
  destruct (lookup "sentiment" d) as [[| | | |s| |]|]; try discriminate.
  destruct (lookup "category" d) as [c|]; try discriminate.
  intros H. apply andb_true_iff in H as (Hc & Hr).
  eexists. split; [reflexivity|].
  cbn [and_then]. unfold get_emoji, article_block, sentiment_icon, colour_of.
  cbn [table_get and_then].
  assert (Hcat : table_get category_emoji c "📰" = Returns (category_icon c)).
  { unfold category_icon. destruct c; try reflexivity; try discriminate.
    cbn [table_get]. destruct (assoc _ _); reflexivity. }
  rewrite Hcat.
  destruct (assoc s sentiment_emoji), (assoc s color_map);
    cbn [and_then method_capitalize];
    destruct (lookup "reasoning" d) as [[| | | |r|l|]|]; try discriminate;
    reflexivity.
Qed.

Lemma article_embed_not_renderable it :
  renderable (item_analysis it) = false -> exists e, article_embed it = Raises e.
Proof.
  unfold renderable, article_embed.
  destruct (item_analysis it) as [| | | | | |d];
    try (intros _; eexists; reflexivity).
  unfold getitem_str, method_get.
  destruct (lookup "sentiment" d) as [sv|]; [|intros _; eexists; reflexivity].
  destruct (lookup "category" d) as [c|];
    [|intros _; destruct sv; eexists; reflexivity].
  cbn [and_then]. unfold get_emoji.
  destruct sv as [| | | |s| |];
    try (intros _; cbn [table_get and_then];
         destruct c; cbn [table_get and_then];
         try destruct (assoc _ category_emoji); eexists; reflexivity).
  cbn [table_get].
  destruct c as [| | | |k| |]; cbn [hashable andb table_get];
    try (intros _; destruct (assoc s sentiment_emoji); eexists; reflexivity);
    destruct (assoc s sentiment_emoji), (assoc s color_map);
    try destruct (assoc k category_emoji);
    cbn [and_then method_capitalize];
    destruct (lookup "reasoning" d) as [[| | | |r|l|]|]; try discriminate;
    intros _; eexists; reflexivity.
Qed.

Lemma embeds_loop_renderable items : forall acc,
  Forall (fun it => renderable (item_analysis it) = true) items ->
  exists blocks,
    for_each_raising items acc add_embed = Returns (acc ++ blocks)%list
    /\ Forall2 (fun it b => block_of it = Some b) items blocks.
Proof.
  induction items as [|it items IH]; intros acc Hall; cbn [for_each_raising].
  - exists []. rewrite app_nil_r. split; [reflexivity | constructor].
  - inversion Hall as [|? ? Hit Hrest]; subst.
    destruct (article_embed_renderable it Hit) as (b & Hb & He).
    unfold add_embed at 1. rewrite He. cbn [and_then].
    destruct (IH (acc ++ [b])%list Hrest) as (blocks & -> & Hblocks).
    exists (b :: blocks). rewrite <- app_assoc. split; [reflexivity|].
    constructor; assumption.
Qed.

Lemma embeds_loop_raises items : forall acc,
  Exists (fun it => renderable (item_analysis it) = false) items ->
  exists e, for_each_raising items acc add_embed = Raises e.
Proof.
  induction items as [|it items IH]; intros acc Hex; [inversion Hex|].
  cbn [for_each_raising]. unfold add_embed at 1.
  destruct (renderable (item_analysis it)) eqn:Hr.
  - destruct (article_embed_renderable it Hr) as (b & _ & ->). cbn [and_then].
    apply IH. inversion Hex as [? ? H | ? ? H]; subst; [congruence | exact H].
  - destruct (article_embed_not_renderable it Hr) as (e & ->). now exists e.
Qed.

Lemma renderable_dec_all items :
  Forall (fun it => renderable (item_analysis it) = true) items
  \/ Exists (fun it => renderable (item_analysis it) = false) items.
Proof.
  induction items as [|it items [IH | IH]].
  - left. constructor.
  - destruct (renderable (item_analysis it)) eqn:Hr.
    + left. now constructor.
    + right. now constructor.
  - right. now constructor 2.
Qed.

Lemma format_renderable E items :
  Forall (fun it => renderable (item_analysis it) = true) items ->
  exists payload,
    format_discord_message E items = Returns payload
    /\ match items with
       | [] => embeds_of payload = [empty_embed E]
       | _ =>
           exists blocks,
             embeds_of payload = header_embed E (List.length items) :: blocks
             /\ Forall2 (fun it b => block_of it = Some b) items blocks
       end.
Proof.
  intros Hall. destruct items as [|it items].
  - eexists. split; reflexivity.
  - unfold format_discord_message.
    destruct (embeds_loop_renderable (it :: items)
                [header_embed E (List.length (it :: items))] Hall)
      as (blocks & -> & Hb).
    cbn [and_then]. eexists. split; [reflexivity|]. exists blocks. now split.
Qed.

Lemma format_raises E items :
  Exists (fun it => renderable (item_analysis it) = false) items ->
  exists e, format_discord_message E items = Raises e.
Proof.
  intros Hex. destruct items as [|it items]; [inversion Hex|].
  unfold format_discord_message.
  destruct (embeds_loop_raises (it :: items)
              [header_embed E (List.length (it :: items))] Hex) as (e & ->).
  now exists e.
Qed.

(** ** Worlds *)







(** ** One article of the loop of [run] *)

Section LoopFacts.

Variable str_of_object : value -> string.
Variable E : env.





End LoopFacts.




Section RunFacts.

Variable str_of_object : value -> string.
Variable E : env.
Variable self : bot.




End RunFacts.

(** ** Icons and colours *)

Lemma table_get_hashable {A} (table : list (string * A)) key default :
  hashable key = true ->
  table_get table key default
  = Returns match key with
            | VStr k =>
                match assoc k table with
                | Some x => x
                | None => default
                end
            | _ => default
            end.
Proof.
  destruct key as [| | | |k| |]; try discriminate; try reflexivity.
  intros _. cbn [table_get]. destruct (assoc k table); reflexivity.
Qed.

Lemma table_get_unhashable {A} (table : list (string * A)) key default :
  hashable key = false -> exists e, table_get table key default = Raises e.
Proof. destruct key; try discriminate; intros _; eexists; reflexivity. Qed.

Lemma get_emoji_hashable s c :
  hashable s = true -> hashable c = true ->
  get_emoji s c
  = Returns (match s with VStr k => sentiment_icon k | _ => "⚪" end,
             category_icon c).
Proof.
  intros Hs Hc. unfold get_emoji.
  rewrite (table_get_hashable _ _ _ Hs), (table_get_hashable _ _ _ Hc).
  cbn [and_then]. unfold sentiment_icon, category_icon.
  destruct s, c; reflexivity.
Qed.

Lemma get_emoji_unhashable s c :
  hashable s && hashable c = false -> exists e, get_emoji s c = Raises e.
Proof.
  intros H. unfold get_emoji. destruct (hashable s) eqn:Hs.
  - rewrite (table_get_hashable _ _ _ Hs). cbn [and_then].
    destruct (table_get_unhashable category_emoji c "📰" H) as (e & ->).
    now exists e.
  - destruct (table_get_unhashable sentiment_emoji s "⚪" Hs) as (e & ->).
    now exists e.
Qed.

Lemma assoc_In {A} k (table : list (string * A)) :
  assoc k table = None <-> ~ In k (map fst table).
Proof.
  induction table as [|(k', x) t IH]; cbn [assoc map fst In]; [tauto|].
  destruct (String.eqb_spec k k') as [-> | Hne].
  - split; [discriminate | intros H; exfalso; apply H; now left].
  - rewrite IH. split.
    + intros H [Heq | Hin]; [congruence | tauto].
    + intros H Hin. apply H. now right.
Qed.

Lemma sentiment_icon_default k :
  sentiment_icon k = "⚪" <-> ~ In k sentiments.
Proof.
  change sentiments with (map fst sentiment_emoji). rewrite <- assoc_In.
  unfold sentiment_icon, sentiment_emoji. cbn [assoc].
  repeat (destruct (String.eqb k _); [split; discriminate|]).
  tauto.
Qed.

Lemma colour_default k :
  colour_of k = 3447003%Z <-> ~ In k sentiments.
Proof.
  change sentiments with (map fst color_map). rewrite <- assoc_In.
  unfold colour_of, color_map. cbn [assoc].
  repeat (destruct (String.eqb k _); [split; discriminate|]).
  tauto.
Qed.

(** ** The fallback and the renderer *)

Lemma fallback_block a :
  renderable (fallback_analysis a) = true
  /\ block_of {| item_article := a; item_analysis := fallback_analysis a |}
     = Some (article_block a (sentiment_of_text (text_of a))
               (VStr (category_of_text (text_of a)))
               (VStr "Keyword-based analysis")).
Proof. split; reflexivity. Qed.

Lemma Forall2_map_block (f : article -> item) (g : article -> value) articles blocks :
  (forall a, block_of (f a) = Some (g a)) ->
  Forall2 (fun it b => block_of it = Some b) (map f articles) blocks ->
  blocks = map g articles.
Proof.
  intros Hfg. revert blocks.
  induction articles as [|a rest IH]; intros blocks H; inversion H; subst;
    [reflexivity|].
  cbn [map]. f_equal; [|now apply IH]. rewrite Hfg in *. congruence.
Qed.

Lemma format_fallback_items E articles :
  exists payload,
    format_discord_message E (fallback_items articles) = Returns payload
    /\ embeds_of payload
       = match articles with
         | [] => [empty_embed E]
         | _ =>
             header_embed E (List.length articles)
             :: map (fun a =>
                       article_block a (sentiment_of_text (text_of a))
                         (VStr (category_of_text (text_of a)))
                         (VStr "Keyword-based analysis"))
                  articles
         end.
Proof.
  assert (Hall : Forall (fun it => renderable (item_analysis it) = true)
                   (fallback_items articles)).
  { unfold fallback_items. apply Forall_forall. intros it Hin.
    apply in_map_iff in Hin as (a & <- & _). reflexivity. }
  destruct (format_renderable E _ Hall) as (payload & Hp & He).
  exists payload. split; [exact Hp|].
  destruct articles as [|a rest]; [exact He|].
  assert (Hlen : List.length (fallback_items (a :: rest)) = List.length (a :: rest))
    by apply length_map.
  remember (a :: rest) as articles eqn:Ha.
  destruct (fallback_items articles) as [|it its] eqn:Hi;
    [subst articles; discriminate Hlen|].
  destruct He as (blocks & -> & Hb). rewrite Hlen. f_equal.
  rewrite <- Hi in Hb. unfold fallback_items in Hb.
  refine (Forall2_map_block _ _ articles blocks _ Hb).
  intros x. apply fallback_block.
Qed.

(** ** The words behind a sentiment *)

Lemma occurring_positive words text :
  0 < occurring words text -> exists w, In w words /\ substring_of w text.
Proof.
  unfold occurring. intros H.
  destruct (filter (fun w => contains w text) words) as [|w l] eqn:Hf;
    [cbn in H; lia|].
  assert (Hin : In w (filter (fun w => contains w text) words))
    by (rewrite Hf; now left).
  apply filter_In in Hin as (Hin & Hc). exists w. split; [exact Hin|].
  now apply contains_spec.
Qed.

Lemma sentiment_has_a_word text :
  (sentiment_of_text text = "positive" ->
   exists w, In w positive_words /\ substring_of w text)
  /\ (sentiment_of_text text = "negative" ->
      exists w, In w negative_words /\ substring_of w text).
Proof.
  unfold sentiment_of_text. rewrite !count_in_occurring.
  destruct (Nat.ltb_spec (occurring negative_words text)
              (occurring positive_words text)) as [Hp | Hp].
  - split; [|discriminate]. intros _. apply occurring_positive. lia.
  - destruct (Nat.ltb_spec (occurring positive_words text)
                (occurring negative_words text)) as [Hn | Hn].
    + split; [discriminate|]. intros _. apply occurring_positive. lia.
    + split; discriminate.
Qed.

(** ** A service that always fails *)


End ExtraFacts.

(* ------------------------------------------------------------------------- *)
(** * Further properties of the code *)
(* ------------------------------------------------------------------------- *)

Import Orchestrator Behaviour Runs ExtraFacts.



(** X2.  A source whose feed cannot be retrieved is skipped: the articles
    returned are those of the same bot without that source, whatever the
    place of the source in the table. *)
Theorem X2_failing_source_is_skipped E url pre src post e w :
  feedparser_parse E (snd src) = Raises e ->
  fst (fetch_articles E {| webhook_url := url;
                           news_sources := (pre ++ src :: post)%list |} w)
  = fst (fetch_articles E {| webhook_url := url;
                             news_sources := (pre ++ post)%list |} w).
Proof.
  intros Hp.
  destruct (fetch_articles_spec E {| webhook_url := url;
                                     news_sources := (pre ++ src :: post)%list |} w)
    as (o1 & ->).
  destruct (fetch_articles_spec E {| webhook_url := url;
                                     news_sources := (pre ++ post)%list |} w)
    as (o2 & ->).
  cbn [fst news_sources]. f_equal.
  rewrite !matching_all_app, matching_all_cons. f_equal.
  unfold matching_all at 1. cbn [flat_map]. now rewrite Hp.
Qed.

(** X2 with the Guardian down, before the source that answers. *)
Lemma X2_failing_source_is_skipped_witness :
  fst (fetch_articles dawn_only
         {| webhook_url := "https://discord.example/api/webhooks/1";
            news_sources :=
              ([] ++ ("The Guardian", "https://www.theguardian.com/world/rss")
                  :: [("Dawn (Pakistan)", "https://www.dawn.com/feeds/home")])%list |}
         world0)
  = fst (fetch_articles dawn_only
           {| webhook_url := "https://discord.example/api/webhooks/1";
              news_sources :=
                ([] ++ [("Dawn (Pakistan)", "https://www.dawn.com/feeds/home")])%list |}
           world0).
Proof.
  exact (X2_failing_source_is_skipped dawn_only
           "https://discord.example/api/webhooks/1" []
           ("The Guardian", "https://www.theguardian.com/world/rss")
           [("Dawn (Pakistan)", "https://www.dawn.com/feeds/home")]
           {| exn_class := "URLError"; exn_msg := "unreachable" |}
           world0 eq_refl).
Defined.

(** X3.  On an ASCII title the test of the matcher does not depend on the
    case of the letters: an entry passes exactly when the entry with the
    lowercase title passes. *)
Theorem X3_matcher_ignores_case :
  forall t l p s,
    is_ascii t = true ->
    mentions_india
      {| entry_title := Some (lower t); entry_link := l; entry_published := p;
         entry_summary := s |}
    = mentions_india
        {| entry_title := Some t; entry_link := l; entry_published := p;
           entry_summary := s |}.
Proof.
  intros t l p s _. unfold mentions_india, search. cbn [entry_title get].
  apply (search_from_lower india_pattern t None).
Qed.

(** X3 at a title in capitals. *)
Lemma X3_matcher_ignores_case_witness :
  mentions_india
    {| entry_title := Some (lower "INDIA Today"); entry_link := None;
       entry_published := None; entry_summary := None |}
  = mentions_india
      {| entry_title := Some "INDIA Today"; entry_link := None;
         entry_published := None; entry_summary := None |}.
Proof.
  exact (X3_matcher_ignores_case "INDIA Today" None None None eq_refl).
Defined.

(** X4.  [re.sub] leaves a reply that holds no code fence as it is. *)
Theorem X4_reply_without_fence_is_kept :
  forall s, contains fence s = false -> sub_fences s = s.
Proof. exact sub_fences_no_fence. Qed.

(** X4 at a JSON reply. *)
Lemma X4_reply_without_fence_is_kept_witness : sub_fences mixed_text = mixed_text.
Proof. exact (X4_reply_without_fence_is_kept mixed_text eq_refl). Defined.

(** X5.  A reply between a [```json] fence and a closing fence, with any
    ASCII whitespace inside the fences, is unwrapped: when the text between
    is ASCII text without backquote, what [strip], [re.sub] and [strip] leave
    is that text without the whitespace around it. *)
Theorem X5_fenced_reply_is_unwrapped :
  forall ws t ws',
    all_space ws = true -> all_space ws' = true ->
    no_backquote t = true -> is_ascii t = true ->
    strip (sub_fences (strip (fenced ws t ws'))) = strip t.
Proof. intros ws t ws' H1 H2 H3 _. now apply sub_fences_fenced. Qed.

(** X5 at a reply fenced on lines of its own. *)
Lemma X5_fenced_reply_is_unwrapped_witness :
  strip (sub_fences (strip (fenced nl mixed_text nl))) = strip mixed_text.
Proof.
  exact (X5_fenced_reply_is_unwrapped nl mixed_text nl
           eq_refl eq_refl eq_refl eq_refl).
Defined.

(** X6.  [analyze_with_ai] makes exactly one call, to the classification
    service with a timeout of 30, whatever the outcome: there is no second
    attempt.  It prints at most one line and returns a value. *)
Theorem X6_classifier_calls_once E a w :
  exists v lines,
    analyze_with_ai E a w
    = (Returns v,
       {| stdout := (stdout w ++ lines)%list;
          posted := (posted w ++ [classification_request a])%list |})
    /\ List.length lines <= 1
    /\ url (classification_request a) = classification_url
    /\ timeout (classification_request a) = 30%Z.
Proof.
  eexists. eexists. split; [apply analyze_with_ai_spec|].
  split; [|split; reflexivity].
  unfold analysis_lines.
  destruct (requests_post E (posted w) (classification_request a)) as [r | e];
    [|simpl; lia].
  destruct (status_code r =? 200)%Z; [|simpl; lia].
  destruct (decoded_reply E r); simpl; lia.
Qed.



(** X8.  A fenced reply is classified as the reply it wraps: when the text of
    the reply is an ASCII text without backquote between a [```json] fence
    and a closing fence, the verdict is what the text between the fences,
    without the whitespace around it, decodes to, and the fallback's when it
    does not decode. *)
Theorem X8_fenced_reply_is_classified :
  forall E a w r data ws t ws',
    requests_post E (posted w) (classification_request a) = Returns r ->
    status_code r = 200%Z ->
    json_loads E (text r) = Returns data ->
    content_text data = Some (fenced ws t ws') ->
    all_space ws = true -> all_space ws' = true ->
    no_backquote t = true -> is_ascii t = true ->
    fst (analyze_with_ai E a w)
    = Returns match json_loads E (strip t) with
              | Returns v => v
              | Raises _ => fallback_analysis a
              end.
Proof.
  intros E a w r data ws t ws' Hp Hs Hd Hc Hws Hws' Ht _.
  rewrite (analysis_of_reply E a w r data Hp Hs Hd), Hc.
  now destruct (sub_fences_fenced ws t ws' Hws Hws' Ht) as (_ & ->).
Qed.

(** X8 at the reply outside the enumerations, fenced. *)
Lemma X8_fenced_reply_is_classified_witness :
  fst (analyze_with_ai fenced_reply cup_article world0) = Returns mixed_verdict.
Proof.
  exact (X8_fenced_reply_is_classified fenced_reply cup_article world0
           {| status_code := 200; text := reply_body (fenced nl mixed_text nl) |}
           (VDict [("content",
                    VList [VDict [("type", VStr "text");
                                  ("text", VStr (fenced nl mixed_text nl))]])])
           nl mixed_text nl
           eq_refl eq_refl eq_refl eq_refl eq_refl eq_refl eq_refl eq_refl).
Defined.

(** X9.  [format_discord_message] returns a payload exactly when every
    analysis is a dict whose sentiment is a string, whose category exists and
    is neither a list nor a dict, and whose reasoning, if any, is a string or
    a list; it raises exactly when one analysis is not. *)
Theorem X9_renderer_returns_iff_renderable :
  forall E items,
    ((exists payload, format_discord_message E items = Returns payload)
     <-> Forall (fun it => renderable (item_analysis it) = true) items)
    /\ ((exists e, format_discord_message E items = Raises e)
        <-> Exists (fun it => renderable (item_analysis it) = false) items).
Proof.
  intros E items. destruct (renderable_dec_all items) as [Hall | Hex].
  - destruct (format_renderable E items Hall) as (payload & Hp & _). split.
    + split; [intros _; exact Hall | intros _; now exists payload].
    + split.
      * intros (e & He). congruence.
      * intros Hex. apply Exists_exists in Hex as (it & Hin & Hr).
        rewrite Forall_forall in Hall. specialize (Hall it Hin). congruence.
  - destruct (format_raises E items Hex) as (e & He). split.
    + split.
      * intros (payload & Hp). congruence.
      * intros Hall. apply Exists_exists in Hex as (it & Hin & Hr).
        rewrite Forall_forall in Hall. specialize (Hall it Hin). congruence.
    + split; [intros _; exact Hex | intros _; now exists e].
Qed.

(** X10.  The block of an article whose texts are ASCII keeps the limits of
    its fields: the title is an icon, a space and the first 200 characters of
    the article's title, the date is the first 50 characters of the published
    date, and the footer is the first 100 characters of the reasoning (the
    first 100 elements for a list, the empty string when there is none); a
    text within its limit is kept whole. *)
Theorem X10_article_block_is_bounded :
  forall it,
    renderable (item_analysis it) = true ->
    ascii_item it = true ->
    exists icon t sentiment_name sentiment_value colour category p reasoning foot,
      article_embed it
      = Returns
          (VDict
             [ ("title", VStr (icon ++ " " ++ t));
               ("url", VStr (link (item_article it)));
               ("color", VInt colour);
               ("fields",
                VList
                  [ VDict [ ("name", VStr "📰 Source");
                            ("value", VStr (source (item_article it)));
                            ("inline", VBool true) ];
                    VDict [ ("name", VStr sentiment_name);
                            ("value", VStr sentiment_value);
                            ("inline", VBool true) ];
                    VDict [ ("name", VStr "🏷️ Category");
                            ("value", category);
                            ("inline", VBool true) ];
                    VDict [ ("name", VStr "📅 Published");
                            ("value", VStr p);
                            ("inline", VBool false) ] ]);
               ("footer", VDict [ ("text", foot) ]) ])
      /\ String.length t <= 200
      /\ (exists rest, title (item_article it) = t ++ rest)
      /\ (String.length (title (item_article it)) <= 200
          -> t = title (item_article it))
      /\ String.length p <= 50
      /\ (exists rest, published (item_article it) = p ++ rest)
      /\ (String.length (published (item_article it)) <= 50
          -> p = published (item_article it))
      /\ method_get (item_analysis it) "reasoning" (VStr EmptyString)
         = Returns reasoning
      /\ match reasoning, foot with
         | VStr r, VStr f =>
             String.length f <= 100
             /\ (exists rest, r = f ++ rest)
             /\ (String.length r <= 100 -> f = r)
         | VList l, VList l' =>
             List.length l' <= 100
             /\ (exists rest, l = (l' ++ rest)%list)
             /\ (List.length l <= 100 -> l' = l)
         | _, _ => False
         end.
Proof.
  intros it Hr _.
  destruct (article_embed_renderable it Hr) as (b & Hb & He).
  unfold block_of in Hb. unfold renderable in Hr.
  destruct (item_analysis it) as [| | | | | |d]; try discriminate.
  destruct (lookup "sentiment" d) as [[| | | |s| |]|]; try discriminate.
  destruct (lookup "category" d) as [c|]; try discriminate.
  injection Hb as <-. rewrite He. unfold article_block.
  do 7 eexists.
  exists match lookup "reasoning" d with Some x => x | None => VStr EmptyString end.
  eexists. split; [reflexivity|].
  split; [apply slice_to_length|].
  split; [apply slice_to_prefix|].
  split; [intros H; now apply slice_to_short|].
  split; [apply slice_to_length|].
  split; [apply slice_to_prefix|].
  split; [intros H; now apply slice_to_short|].
  apply andb_true_iff in Hr as (_ & Hr).
  unfold footer_of, method_get.
  destruct (lookup "reasoning" d) as [[| | | |r|l|]|]; try discriminate;
    (split; [reflexivity|]).
  - split; [apply slice_to_length|].
    split; [apply slice_to_prefix | intros H; now apply slice_to_short].
  - split; [rewrite length_firstn; lia|].
    split.
    + exists (skipn 100 l). symmetry. apply firstn_skipn.
    + intros H. now apply firstn_all2.
  - cbn. repeat split; try lia. now exists EmptyString.
Qed.

(** X10 at an article whose title has 246 characters and whose date has 52. *)
Lemma X10_article_block_is_bounded_witness :
  renderable (item_analysis long_title_item) = true
  /\ ascii_item long_title_item = true
  /\ exists icon t sentiment_name sentiment_value colour category p reasoning foot,
       article_embed long_title_item
       = Returns
           (VDict
              [ ("title", VStr (icon ++ " " ++ t));
                ("url", VStr (link (item_article long_title_item)));
                ("color", VInt colour);
                ("fields",
                 VList
                   [ VDict [ ("name", VStr "📰 Source");
                             ("value", VStr (source (item_article long_title_item)));
                             ("inline", VBool true) ];
                     VDict [ ("name", VStr sentiment_name);
                             ("value", VStr sentiment_value);
                             ("inline", VBool true) ];
                     VDict [ ("name", VStr "🏷️ Category");
                             ("value", category);
                             ("inline", VBool true) ];
                     VDict [ ("name", VStr "📅 Published");
                             ("value", VStr p);
                             ("inline", VBool false) ] ]);
                ("footer", VDict [ ("text", foot) ]) ])
       /\ String.length t <= 200
       /\ (exists rest, title (item_article long_title_item) = t ++ rest)
       /\ (String.length (title (item_article long_title_item)) <= 200
           -> t = title (item_article long_title_item))
       /\ String.length p <= 50
       /\ (exists rest, published (item_article long_title_item) = p ++ rest)
       /\ (String.length (published (item_article long_title_item)) <= 50
           -> p = published (item_article long_title_item))
       /\ method_get (item_analysis long_title_item) "reasoning" (VStr EmptyString)
          = Returns reasoning
       /\ match reasoning, foot with
          | VStr r, VStr f =>
              String.length f <= 100
              /\ (exists rest, r = f ++ rest)
              /\ (String.length r <= 100 -> f = r)
          | VList l, VList l' =>
              List.length l' <= 100
              /\ (exists rest, l = (l' ++ rest)%list)
              /\ (List.length l <= 100 -> l' = l)
          | _, _ => False
          end.
Proof.
  split; [reflexivity|]. split; [reflexivity|].
  exact (X10_article_block_is_bounded long_title_item eq_refl eq_refl).
Defined.

(** X11.  [get_emoji] returns for every sentiment and category that can be
    hashed and raises when one is a list or a dict.  On strings it returns
    the icons of the tables; the sentiment gets the white circle exactly
    when it is none of positive, negative, neutral (the lookup is
    case-sensitive), and the category gets the newspaper exactly when it is
    "Other" or is not in the enumeration. *)
Theorem X11_get_emoji_defaults :
  (forall s c,
      (exists icons, get_emoji s c = Returns icons)
      <-> hashable s && hashable c = true)
  /\ (forall k c,
        get_emoji (VStr k) (VStr c)
        = Returns (sentiment_icon k, category_icon (VStr c)))
  /\ (forall k, sentiment_icon k = "⚪" <-> ~ In k sentiments)
  /\ sentiment_icon "Positive" = "⚪"
  /\ (forall c,
        category_icon (VStr c) = "📰" <-> c = "Other" \/ ~ In c categories).
Proof.
  split.
  { intros s c. destruct (hashable s && hashable c) eqn:H.
    - apply andb_true_iff in H as (Hs & Hc).
      rewrite (get_emoji_hashable s c Hs Hc).
      split; [reflexivity | intros _; eexists; reflexivity].
    - destruct (get_emoji_unhashable s c H) as (e & ->).
      split; [intros (p & Hp); discriminate Hp | discriminate]. }
  split; [intros k c; now apply get_emoji_hashable|].
  split; [exact sentiment_icon_default|].
  split; [reflexivity|].
  intros c. unfold category_icon, category_emoji, categories. cbn [assoc In].
  repeat match goal with
         | |- context [String.eqb c ?k] =>
             destruct (String.eqb_spec c k) as [-> | ?]
         end;
    try (split; [discriminate | intros [H | H]; [discriminate H | exfalso; apply H; tauto]]);
    try (split; [intros _; now left | reflexivity]).
  split; [intros _; right; intuition congruence | reflexivity].
Qed.

(** X12.  Articles classified by the fallback always render: the payload has
    the empty-state block for no article and otherwise the header and, for
    each article in order, the block of its fallback verdict with the footer
    "Keyword-based analysis"; the colour and the sentiment icon of such a
    block are never the defaults for an unknown sentiment. *)
Theorem X12_fallback_verdicts_always_render :
  forall E articles,
    (exists payload,
        format_discord_message E (fallback_items articles) = Returns payload
        /\ embeds_of payload
           = match articles with
             | [] => [empty_embed E]
             | _ =>
                 header_embed E (List.length articles)
                 :: map (fun a =>
                           article_block a (sentiment_of_text (text_of a))
                             (VStr (category_of_text (text_of a)))
                             (VStr "Keyword-based analysis"))
                      articles
             end)
    /\ Forall (fun a =>
                 colour_of (sentiment_of_text (text_of a)) <> 3447003%Z
                 /\ sentiment_icon (sentiment_of_text (text_of a)) <> "⚪")
         articles.
Proof.
  intros E articles. split; [apply format_fallback_items|].
  apply Forall_forall. intros a _.
  pose proof (sentiment_in_enumeration (text_of a)) as H. apply mem_In in H.
  split.
  - intros Hc. now apply colour_default in Hc.
  - intros Hc. now apply sentiment_icon_default in Hc.
Qed.

(** X13.  The fallback gives "positive" only to a text in which a word of
    the positive list occurs, "negative" only to one in which a word of the
    negative list occurs, and "neutral" to a text in which no listed word
    occurs; the text is the lowercase title and summary, whatever the table
    of [str.lower()] is. *)
Theorem X13_sentiment_needs_a_word :
  forall (str_lower : string -> string) a,
    (field "sentiment" (fallback_analysis_with str_lower a) = Some "positive" ->
     exists w, In w positive_words
               /\ substring_of w (text_of_with str_lower a))
    /\ (field "sentiment" (fallback_analysis_with str_lower a) = Some "negative" ->
        exists w, In w negative_words
                  /\ substring_of w (text_of_with str_lower a))
    /\ (none_in positive_words (text_of_with str_lower a) ->
        none_in negative_words (text_of_with str_lower a) ->
        field "sentiment" (fallback_analysis_with str_lower a) = Some "neutral").
Proof.
  intros str_lower a.
  change (field "sentiment" (fallback_analysis_with str_lower a))
    with (Some (sentiment_of_text (text_of_with str_lower a))).
  destruct (sentiment_has_a_word (text_of_with str_lower a)) as (Hp & Hn).
  split; [intros [= H]; now apply Hp|].
  split; [intros [= H]; now apply Hn|].
  intros Hnp Hnn. f_equal. unfold sentiment_of_text.
  apply existsb_contains_false in Hnp, Hnn.
  assert (H0 : forall words text,
             existsb (fun w => contains w text) words = false ->
             count_in words text = 0).
  { intros words text. induction words as [|w ws IH]; [reflexivity|].
    cbn [existsb count_in]. intros H. apply orb_false_iff in H as (-> & H).
    now apply IH. }
  now rewrite (H0 _ _ Hnp), (H0 _ _ Hnn).
Qed.

(** X13 at the World Cup article: its text holds "win". *)
Lemma X13_sentiment_needs_a_word_witness :
  exists w, In w positive_words /\ substring_of w (text_of_with lower cup_article).
Proof.
  exact (proj1 (X13_sentiment_needs_a_word lower cup_article) eq_refl).
Defined.








